(** * Personal-finance dashboard: the remote data client and the locally
      computed ratios

    A shallow embedding of the TypeScript client [lib/api] (the four
    operations [fetchDashboard], [fetchExpenses], [syncExpenses] and
    [fetchAuthStatus]), of the category chart [TopCategoryChart] and of the
    monthly average of the [Index] page, followed by the properties the
    specification states about them.

    JavaScript numbers are IEEE 754 binary64 values; they are modelled by
    the Standard Library's [spec_float] at precision 53 and maximal exponent
    1024, whose operations are executable and round to nearest even, as the
    language prescribes. Strings are byte strings (the UTF-8 encoding of the
    JavaScript string). Asynchronous functions are functions into a
    three-valued [Promise]: fulfilled, rejected, or never settled. *)

From Stdlib Require Import ZArith NArith QArith Qround List String Ascii Bool Lia.
From Stdlib Require Import DecimalString SpecFloat Sorted Permutation.
Import ListNotations.

Local Open Scope string_scope.

(** ** JavaScript numbers *)

Module Num.

Definition number := spec_float.

Definition prec : Z := 53.
Definition emax : Z := 1024.

Definition zero : number := S754_zero false.
Definition of_Z (z : Z) : number := binary_normalize prec emax z 0 false.

Definition add : number -> number -> number := SFadd prec emax.
Definition mul : number -> number -> number := SFmul prec emax.
Definition div : number -> number -> number := SFdiv prec emax.
Definition neg : number -> number := SFopp.

(** [a > b], [a === b] on numbers. *)
Definition gt (a b : number) : bool := SFltb b a.
Definition eqb (a b : number) : bool := SFeqb a b.

(** ToBoolean on a number: [0], [-0] and [NaN] are falsy. *)
Definition truthy (x : number) : bool :=
  match x with
  | S754_zero _ | S754_nan => false
  | _ => true
  end.

(** *** Exact decimal rendering

    [Number::toString] and [Number.prototype.toFixed] are defined by the
    language on the exact real value of the number; the reals that occur
    are dyadic rationals, so [Q] computes them exactly. *)

Definition pow10 (n : Z) : Q := Qpower (10 # 1) n.
Definition pow2 (e : Z) : Q := Qpower (2 # 1) e.
Definition Qltb (a b : Q) : bool := negb (Qle_bool b a).

(** The real value of the finite number with mantissa [m] and exponent [e]. *)
Definition value (m : positive) (e : Z) : Q := inject_Z (Zpos m) * pow2 e.

Definition digits (n : Z) : string := NilZero.string_of_uint (N.to_uint (Z.to_N n)).

Fixpoint zeros (n : nat) : string :=
  match n with
  | O => EmptyString
  | S n' => String "0" (zeros n')
  end.

Definition take (n : nat) (s : string) : string := substring 0 n s.
Definition drop (n : nat) (s : string) : string := substring n (String.length s - n) s.

(** The reals that round to the number [m * 2^e]: the open interval between
    the midpoints towards its two neighbours, closed when the mantissa is
    even (ties go to the even mantissa). The lower neighbour is half as far
    when [m] is the least mantissa of its binade. *)
Definition least_mantissa : positive := Pos.pow 2 52.
Definition least_exponent : Z := (3 - emax - prec)%Z.

Definition rounds_to (m : positive) (e : Z) (v : Q) : bool :=
  let x := value m e in
  let up := pow2 (e - 1) in
  let down := if Pos.eqb m least_mantissa && Z.ltb least_exponent e
              then pow2 (e - 2) else pow2 (e - 1) in
  let lo := x - down in
  let hi := x + up in
  (Qltb lo v && Qltb v hi) || (Z.even (Zpos m) && (Qeq_bool v lo || Qeq_bool v hi)).

(** The least [n] from [n0] on with [x < 10^n]. *)
Fixpoint magnitude (fuel : nat) (x : Q) (n0 : Z) : Z :=
  match fuel with
  | O => n0
  | S fuel' => if Qltb x (pow10 n0) then n0 else magnitude fuel' x (n0 + 1)
  end.

(** The digits [s] and the position [n] of [Number::toString]: the fewest
    digits [k] such that [s * 10^(n-k)] still rounds to the number, and among
    those the [s] whose value is closest to it (the even one on a tie). With
    [k] digits only the two multiples of [10^(n-k)] around [x] can qualify. *)
Fixpoint shortest (fuel : nat) (m : positive) (e : Z) (n k : Z) : Z * Z :=
  let x := value m e in
  let p := (n - k)%Z in
  let slo := Qfloor (x / pow10 p) in
  let shi := (slo + 1)%Z in
  let vlo := inject_Z slo * pow10 p in
  let vhi := inject_Z shi * pow10 p in
  let norm s := if Z.eqb s (10 ^ k) then ((10 ^ (k - 1))%Z, (n + 1)%Z) else (s, n) in
  let oklo := Z.leb (10 ^ (k - 1)) slo && rounds_to m e vlo in
  let okhi := rounds_to m e vhi in
  match fuel with
  | O => (slo, n)
  | S fuel' =>
      match oklo, okhi with
      | true, false => (slo, n)
      | false, true => norm shi
      | true, true =>
          let dlo := x - vlo in
          let dhi := vhi - x in
          if Qltb dlo dhi then (slo, n)
          else if Qltb dhi dlo then norm shi
          else if Z.even slo then (slo, n) else norm shi
      | false, false => shortest fuel' m e n (k + 1)
      end
  end.

Definition count_digits (s : Z) : Z := Z.of_nat (String.length (digits s)).

Definition exponent_part (n : Z) : string :=
  let e := (n - 1)%Z in
  String "e" ((if Z.ltb e 0 then "-" else "+") ++ digits (Z.abs e)).

(** Steps 7 to 11 of [Number::toString] for radix 10. *)
Definition layout (s n : Z) : string :=
  let d := digits s in
  let k := count_digits s in
  if Z.leb k n && Z.leb n 21 then d ++ zeros (Z.to_nat (n - k))
  else if Z.ltb 0 n && Z.leb n 21 then take (Z.to_nat n) d ++ "." ++ drop (Z.to_nat n) d
  else if Z.ltb (-6) n && Z.leb n 0 then "0." ++ zeros (Z.to_nat (- n)) ++ d
  else if Z.eqb k 1 then d ++ exponent_part n
  else take 1 d ++ "." ++ drop 1 d ++ exponent_part n.

(** A finite number in canonical form (53-bit mantissa, or the least
    exponent), which is how a double is stored. *)
Definition canonical (m : positive) (e : Z) : positive * Z :=
  match binary_round prec emax false m e with
  | S754_finite _ m' e' => (m', e')
  | _ => (m, e)
  end.

Definition toString_pos (m : positive) (e : Z) : string :=
  let '(m', e') := canonical m e in
  let n := magnitude 640 (value m' e') (-324) in
  let '(s, n') := shortest 17 m' e' n 1 in
  layout s n'.

(** [Number::toString(x)], radix 10. *)
Definition toString (x : number) : string :=
  match x with
  | S754_nan => "NaN"
  | S754_zero _ => "0"
  | S754_infinity false => "Infinity"
  | S754_infinity true => "-Infinity"
  | S754_finite false m e => toString_pos m e
  | S754_finite true m e => "-" ++ toString_pos m e
  end.

(** [Number.prototype.toFixed(f)] for [0 <= f <= 100]: the integer [n]
    closest to [x * 10^f], the larger one on a tie, printed with [f] digits
    after the point; magnitudes from [10^21] on print as [toString]. *)
Definition toFixed_pos (m : positive) (e : Z) (f : nat) : string :=
  let x := value m e in
  if Qle_bool (pow10 21) x then toString_pos m e
  else
    let n := Qfloor (x * pow10 (Z.of_nat f) + (1 # 2)) in
    let d := digits n in
    match f with
    | O => d
    | _ =>
        let k := String.length d in
        let d' := if Nat.leb k f then zeros (f + 1 - k) ++ d else d in
        let k' := String.length d' in
        take (k' - f) d' ++ "." ++ drop (k' - f) d'
    end.

Definition toFixed (x : number) (f : nat) : string :=
  match x with
  | S754_nan => "NaN"
  | S754_infinity false => "Infinity"
  | S754_infinity true => "-Infinity"
  | S754_zero _ => match f with O => "0" | _ => "0." ++ zeros f end
  | S754_finite false m e => toFixed_pos m e f
  | S754_finite true m e => "-" ++ toFixed_pos m e f
  end.

End Num.

(** ** JavaScript values *)

Module JS.

Import Num.

#[local] Set Warnings "-register-all".

(** A JavaScript value as far as JSON and property reads go. An object is
    its list of own properties in insertion order; [JSON.parse] and object
    literals never repeat a name. *)
Inductive JSValue :=
| JUndefined
| JNull
| JBool (b : bool)
| JNum (x : number)
| JStr (s : string)
| JArr (items : list JSValue)
| JObj (props : list (string * JSValue)).

(** ToBoolean. *)
Definition str_truthy (s : string) : bool :=
  match s with
  | EmptyString => false
  | String _ _ => true
  end.

Definition truthy (v : JSValue) : bool :=
  match v with
  | JUndefined | JNull => false
  | JBool b => b
  | JNum x => Num.truthy x
  | JStr s => str_truthy s
  | JArr _ | JObj _ => true
  end.

(** [a || b] *)
Definition or_else (a b : JSValue) : JSValue := if truthy a then a else b.

(** What a function can throw or a promise reject with. *)
Inductive JSError :=
| Error (message : string)   (* [new Error(message)] *)
| TypeError                  (* the platform's: a failed fetch, a property read on null *)
| SyntaxError                (* [response.json()] on a body that is not JSON *)
| AbortError.                (* the DOMException of an aborted request *)

(** The state of the promise an async function returns; a [throw] inside
    the function rejects it. *)
Inductive Promise (A : Type) :=
| Fulfilled (a : A)
| Rejected (e : JSError)
| Pending.

Arguments Fulfilled {A} a.
Arguments Rejected {A} e.
Arguments Pending {A}.

Definition bind {A B} (p : Promise A) (k : A -> Promise B) : Promise B :=
  match p with
  | Fulfilled a => k a
  | Rejected e => Rejected e
  | Pending => Pending
  end.

Definition throw {A} (e : JSError) : Promise A := Rejected e.

(** Own property of an object. *)
Fixpoint own (k : string) (props : list (string * JSValue)) : option JSValue :=
  match props with
  | [] => None
  | (k', v) :: rest => if String.eqb k' k then Some v else own k rest
  end.

(** [v.k] for a name [k] that no built-in prototype defines (the client
    reads [dashboard], [expenses], [authenticated] and [user]): a missing
    property reads as [undefined], and reading from [null] or [undefined]
    throws. *)
Definition member (v : JSValue) (k : string) : Promise JSValue :=
  match v with
  | JUndefined | JNull => throw TypeError
  | JObj props =>
      match own k props with
      | Some x => Fulfilled x
      | None => Fulfilled JUndefined
      end
  | _ => Fulfilled JUndefined
  end.

(** *** JSON.stringify *)

Definition dquote : ascii := "034"%char.

Definition hex_digit (upper : bool) (n : N) : ascii :=
  if N.ltb n 10 then ascii_of_N (48 + n)
  else ascii_of_N ((if upper then 55 else 87) + n).

Definition escape_char (c : ascii) : string :=
  let n := N_of_ascii c in
  if N.eqb n 34 then String "\" (String dquote EmptyString)
  else if N.eqb n 92 then "\\"
  else if N.eqb n 8 then "\b"
  else if N.eqb n 12 then "\f"
  else if N.eqb n 10 then "\n"
  else if N.eqb n 13 then "\r"
  else if N.eqb n 9 then "\t"
  else if N.ltb n 32 then
    "\u00" ++ String (hex_digit false (n / 16)) (String (hex_digit false (n mod 16)) EmptyString)
  else String c EmptyString.

Fixpoint escape (s : string) : string :=
  match s with
  | EmptyString => EmptyString
  | String c s' => escape_char c ++ escape s'
  end.

Definition quote (s : string) : string :=
  String dquote (escape s ++ String dquote EmptyString).

Definition finite (x : number) : bool :=
  match x with
  | S754_zero _ | S754_finite _ _ _ => true
  | _ => false
  end.

(** [JSON.stringify(v)] without replacer or indentation; [None] is the
    result [undefined]. An [undefined] property is left out, an [undefined]
    array item prints as [null], as does a number that is not finite. *)
Fixpoint stringify (v : JSValue) : option string :=
  match v with
  | JUndefined => None
  | JNull => Some "null"
  | JBool b => Some (if b then "true" else "false")
  | JNum x => Some (if finite x then Num.toString x else "null")
  | JStr s => Some (quote s)
  | JArr items =>
      let item v := match stringify v with Some s => s | None => "null" end in
      Some ("[" ++ String.concat "," (map item items) ++ "]")
  | JObj props =>
      let prop (kv : string * JSValue) :=
        match stringify (snd kv) with
        | Some s => [quote (fst kv) ++ ":" ++ s]
        | None => []
        end in
      Some ("{" ++ String.concat "," (flat_map prop props) ++ "}")
  end.

End JS.

(** ** The network as the client sees it *)

Module Net.

Import JS.

Record Request := {
  method : string;
  url : string;
  headers : list (string * string);
  body : option string
}.

(** [fetch(url)] without options. *)
Definition GET (u : string) : Request :=
  {| method := "GET"; url := u; headers := []; body := None |}.

(** A response: its status, and its body as [response.json()] parses it
    ([None] when the text is not JSON). *)
Record Response := {
  status : N;
  payload : option JSValue
}.

(** [response.ok] *)
Definition ok (r : Response) : bool := N.leb 200 (status r) && N.leb (status r) 299.

(** [response.json()] *)
Definition json (r : Response) : Promise JSValue :=
  match payload r with
  | Some v => Fulfilled v
  | None => throw SyntaxError
  end.

(** What happens to one request: after [latency] milliseconds ([None]:
    never) either a response arrives or the transport fails. *)
Inductive Transport :=
| Answer (r : Response)
| Failure.

Record Exchange := {
  latency : option N;
  transport : Transport
}.

Definition Network := Request -> Exchange.

Definition settle (t : Transport) : Promise Response :=
  match t with
  | Answer r => Fulfilled r
  | Failure => throw TypeError
  end.

(** [fetch(request)] with no abort signal: settles when the exchange does. *)
Definition fetch (net : Network) (req : Request) : Promise Response :=
  match latency (net req) with
  | Some _ => settle (transport (net req))
  | None => Pending
  end.

(** [arrives_by d x]: the exchange settles within [d] milliseconds. *)
Definition arrives_by (d : N) (x : Exchange) : bool :=
  match latency x with
  | Some t => N.leb t d
  | None => false
  end.

(** [fetch(request, { signal })] with [controller.abort()] scheduled after
    [d] milliseconds: the exchange settles first, or the timer fires, the
    request is aborted and the promise rejects with the abort error. The
    second component tells whether [abort] ran. *)
Definition fetch_with_abort (net : Network) (req : Request) (d : N) : Promise Response * bool :=
  if arrives_by d (net req) then (settle (transport (net req)), false)
  else (throw AbortError, true).

(** *** URLSearchParams *)

Definition URLSearchParams := list (string * string).

Definition remove (name : string) (l : URLSearchParams) : URLSearchParams :=
  filter (fun kv => negb (String.eqb (fst kv) name)) l.

(** [set]: the first pair of that name takes the value and the others go;
    without one, the pair is appended. *)
Fixpoint set (name value : string) (l : URLSearchParams) : URLSearchParams :=
  match l with
  | [] => [(name, value)]
  | (k, v) :: rest =>
      if String.eqb k name then (k, value) :: remove name rest
      else (k, v) :: set name value rest
  end.

(** The application/x-www-form-urlencoded serializer: letters, digits and
    [*-._] stay, a space becomes [+], any other byte [%XX]. *)
Definition unreserved (n : N) : bool :=
  (N.leb 48 n && N.leb n 57) || (N.leb 65 n && N.leb n 90) || (N.leb 97 n && N.leb n 122)
  || N.eqb n 42 || N.eqb n 45 || N.eqb n 46 || N.eqb n 95.

Definition encode_byte (c : ascii) : string :=
  let n := N_of_ascii c in
  if unreserved n then String c EmptyString
  else if N.eqb n 32 then "+"
  else String "%" (String (hex_digit true (n / 16)) (String (hex_digit true (n mod 16)) EmptyString)).

Fixpoint encode (s : string) : string :=
  match s with
  | EmptyString => EmptyString
  | String c s' => encode_byte c ++ encode s'
  end.

(** [searchParams.toString()] *)
Definition serialize (l : URLSearchParams) : string :=
  String.concat "&" (map (fun kv => encode (fst kv) ++ "=" ++ encode (snd kv)) l).

(** [new URLSearchParams(text)], the application/x-www-form-urlencoded
    parser: the text is cut at every [&], empty pieces are skipped, a piece is
    cut at its first [=], a [+] reads as a space and [%XX] as the byte. *)
Definition hex_value (c : ascii) : option N :=
  let n := N_of_ascii c in
  if N.leb 48 n && N.leb n 57 then Some (n - 48)%N
  else if N.leb 65 n && N.leb n 70 then Some (n - 55)%N
  else if N.leb 97 n && N.leb n 102 then Some (n - 87)%N
  else None.

Fixpoint percent_decode (s : string) : string :=
  match s with
  | EmptyString => EmptyString
  | String c rest =>
      if Ascii.eqb c "%" then
        match rest with
        | String h (String l rest') =>
            match hex_value h, hex_value l with
            | Some a, Some b => String (ascii_of_N (16 * a + b)) (percent_decode rest')
            | _, _ => String c (percent_decode rest)
            end
        | _ => String c (percent_decode rest)
        end
      else String c (percent_decode rest)
  end.

Fixpoint plus_to_space (s : string) : string :=
  match s with
  | EmptyString => EmptyString
  | String c rest => String (if Ascii.eqb c "+" then " "%char else c) (plus_to_space rest)
  end.

Definition decode (s : string) : string := percent_decode (plus_to_space s).

(** The pieces of [s] between the occurrences of [sep]. *)
Fixpoint split (sep : ascii) (s : string) : list string :=
  match s with
  | EmptyString => [EmptyString]
  | String c rest =>
      if Ascii.eqb c sep then EmptyString :: split sep rest
      else
        match split sep rest with
        | piece :: pieces => String c piece :: pieces
        | [] => [String c EmptyString]
        end
  end.

(** [s] before and after its first [sep]; without one, [s] and nothing. *)
Fixpoint cut (sep : ascii) (s : string) : string * string :=
  match s with
  | EmptyString => (EmptyString, EmptyString)
  | String c rest =>
      if Ascii.eqb c sep then (EmptyString, rest)
      else let '(before, after) := cut sep rest in (String c before, after)
  end.

Definition parse_piece (piece : string) : URLSearchParams :=
  match piece with
  | EmptyString => []
  | _ => let '(name, value) := cut "=" piece in [(decode name, decode value)]
  end.

Definition parse (text : string) : URLSearchParams :=
  flat_map parse_piece (split "&" text).

End Net.

(** ** The API client ([lib/api]) *)

Module Api.

Import Num JS Net.

Definition API_BASE : string := "/api".

(** One run of an operation: the requests it sent, whether it aborted its
    request, and the state of the promise it returned. *)
Record Run (A : Type) := {
  sent : list Request;
  aborted : bool;
  outcome : Promise A
}.

Arguments sent {A} r.
Arguments aborted {A} r.
Arguments outcome {A} r.

(** The envelope step of [fetchDashboard]: [json.dashboard || json]. *)
Definition unwrapDashboard (json : JSValue) : Promise JSValue :=
  bind (member json "dashboard") (fun d => Fulfilled (or_else d json)).

Definition dashboardTimeout : N := 5000.

Definition dashboardRequest : Request := GET (API_BASE ++ "/dashboard").

(** [fetchDashboard]. Both the [try] block and the [catch] clause clear
    the timer, and the [catch] clause rethrows what it caught, so the
    promise carries the outcome of the [try] block. *)
Definition fetchDashboard (net : Network) : Run JSValue :=
  let '(response, fired) := fetch_with_abort net dashboardRequest dashboardTimeout in
  {| sent := [dashboardRequest];
     aborted := fired;
     outcome :=
       bind response (fun response =>
       if negb (ok response) then throw (Error "Failed to fetch dashboard data")
       else bind (json response) unwrapDashboard) |}.

(** The parameter object of [fetchExpenses]; each field may be missing. *)
Record ExpenseParams := {
  year : option string;
  month : option string;
  category : option string
}.

(** [params?.field] *)
Definition field (f : ExpenseParams -> option string) (params : option ExpenseParams) : option string :=
  match params with
  | Some p => f p
  | None => None
  end.

(** [if (params?.field) searchParams.set(name, params.field)] *)
Definition setIfPresent (name : string) (v : option string) (l : URLSearchParams) : URLSearchParams :=
  match v with
  | Some s => if str_truthy s then set name s l else l
  | None => l
  end.

Definition expensesSearchParams (params : option ExpenseParams) : URLSearchParams :=
  setIfPresent "category" (field category params)
    (setIfPresent "month" (field month params)
      (setIfPresent "year" (field year params) [])).

Definition expensesUrl (params : option ExpenseParams) : string :=
  let searchParams := expensesSearchParams params in
  if str_truthy (serialize searchParams)
  then API_BASE ++ "/expenses?" ++ serialize searchParams
  else API_BASE ++ "/expenses".

(** The envelope step of [fetchExpenses]: [json.expenses || []]. *)
Definition unwrapExpenses (json : JSValue) : Promise JSValue :=
  bind (member json "expenses") (fun e => Fulfilled (or_else e (JArr []))).

Definition fetchExpenses (net : Network) (params : option ExpenseParams) : Run JSValue :=
  let request := GET (expensesUrl params) in
  {| sent := [request];
     aborted := false;
     outcome :=
       bind (fetch net request) (fun response =>
       if negb (ok response) then throw (Error "Failed to fetch expenses")
       else bind (json response) unwrapExpenses) |}.

(** The request of [syncExpenses(daysBack)]. *)
Definition syncRequest (daysBack : number) : Request :=
  {| method := "POST";
     url := API_BASE ++ "/sync";
     headers := [("Content-Type", "application/json")];
     body := stringify (JObj [("days_back", JNum daysBack)]) |}.

(** [syncExpenses(daysBack = 30)]; [None] is a call without argument. *)
Definition syncExpenses (net : Network) (daysBack : option number) : Run JSValue :=
  let daysBack := match daysBack with Some d => d | None => of_Z 30 end in
  let request := syncRequest daysBack in
  {| sent := [request];
     aborted := false;
     outcome :=
       bind (fetch net request) (fun response =>
       if negb (ok response) then throw (Error "Failed to sync expenses")
       else json response) |}.

(** The object [fetchAuthStatus] builds. *)
Record AuthStatus := {
  authenticated : JSValue;
  user : JSValue
}.

Definition authRequest : Request := GET (API_BASE ++ "/auth/status").

Definition fetchAuthStatus (net : Network) : Run AuthStatus :=
  {| sent := [authRequest];
     aborted := false;
     outcome :=
       bind (fetch net authRequest) (fun response =>
       if negb (ok response) then throw (Error "Failed to fetch auth status")
       else
         bind (json response) (fun json =>
         bind (member json "authenticated") (fun a =>
         bind (member json "user") (fun u =>
         Fulfilled {| authenticated := a; user := or_else u JNull |})))) |}.

End Api.

(** ** The category chart ([TopCategoryChart]) *)

Module Chart.

Import Num.

Record CategoryData := {
  category : string;
  total : number;
  count : number
}.

Definition COLORS : list string :=
  ["#22c55e"; "#3b82f6"; "#f97316"; "#ef4444"; "#14b8a6"; "#eab308"; "#8b5cf6"; "#ec4899"].

(** [COLORS[i % COLORS.length]]; the index is always in range. *)
Definition colorAt (i : nat) : string := nth (i mod List.length COLORS) COLORS EmptyString.

(** [data.reduce((sum, c) => sum + c.total, 0)] *)
Definition grandTotal (data : list CategoryData) : number :=
  fold_left (fun sum c => add sum (total c)) data zero.

(** [total > 0 ? (c.total / total) * 100 : 0] *)
Definition share (sum : number) (c : CategoryData) : number :=
  if gt sum zero then mul (div (total c) sum) (of_Z 100) else zero.

Record Segment := {
  pct : number;
  offset : number;
  seg_color : string;
  seg_category : string;
  seg_amount : number
}.

(** The [map] callback of [segments] from index [i] on; [cumulative] is the
    variable the callback updates. *)
Fixpoint segmentsFrom (sum : number) (i : nat) (cumulative : number)
    (l : list CategoryData) : list Segment :=
  match l with
  | [] => []
  | c :: rest =>
      let pct := share sum c in
      {| pct := pct; offset := cumulative; seg_color := colorAt i;
         seg_category := category c; seg_amount := total c |}
      :: segmentsFrom sum (S i) (add cumulative pct) rest
  end.

(** [data.slice(0, 8)] *)
Definition shown (data : list CategoryData) : list CategoryData := firstn 8 data.

Definition segments (data : list CategoryData) : list Segment :=
  segmentsFrom (grandTotal data) 0 zero (shown data).

Record Legend := {
  name : string;
  amount : string;
  rawAmount : number;
  percentage : string;
  color : string;
  leg_count : number
}.

Section Formatted.

(** [formatCurrency]: the platform's [Intl.NumberFormat] for en-IN rupees
    with two fraction digits. *)
Variable formatCurrency : number -> string.

(** [total > 0 ? ((c.total / total) * 100).toFixed(1) : "0"] *)
Definition percentageOf (sum : number) (c : CategoryData) : string :=
  if gt sum zero then toFixed (mul (div (total c) sum) (of_Z 100)) 1 else "0".

Fixpoint categoriesFrom (sum : number) (i : nat) (l : list CategoryData) : list Legend :=
  match l with
  | [] => []
  | c :: rest =>
      {| name := category c; amount := formatCurrency (total c); rawAmount := total c;
         percentage := percentageOf sum c; color := colorAt i; leg_count := count c |}
      :: categoriesFrom sum (S i) rest
  end.

Definition categories (data : list CategoryData) : list Legend :=
  categoriesFrom (grandTotal data) 0 (shown data).

End Formatted.

End Chart.

(** ** Arrays and strings of the platform, as the pages use them *)

Module Arr.

Import JS.

(** [a.sort()] on strings: ascending in the lexicographic order of their
    units, here bytes. Any correct sort gives this list, since the order is
    total and antisymmetric. *)
Fixpoint insert (x : string) (l : list string) : list string :=
  match l with
  | [] => [x]
  | y :: rest => if String.leb x y then x :: l else y :: insert x rest
  end.

Fixpoint sort (l : list string) : list string :=
  match l with
  | [] => []
  | x :: rest => insert x (sort rest)
  end.

Definition mem (x : string) (l : list string) : bool := existsb (String.eqb x) l.

(** [[...new Set(l)]]: each string once, in the order of first occurrence;
    [seen] holds the strings already met. *)
Fixpoint uniqueFrom (seen l : list string) : list string :=
  match l with
  | [] => []
  | x :: rest => if mem x seen then uniqueFrom seen rest else x :: uniqueFrom (x :: seen) rest
  end.

Definition unique (l : list string) : list string := uniqueFrom [] l.

(** [s.split(sep)[0]]: [s] up to its first [sep], all of [s] without one. *)
Definition firstPart (sep : ascii) (s : string) : string := fst (Net.cut sep s).

(** [hay.includes(needle)] *)
Fixpoint includes (hay needle : string) : bool :=
  String.prefix needle hay ||
  match hay with
  | EmptyString => false
  | String _ rest => includes rest needle
  end.

(** [s || fallback] on strings. *)
Definition orString (s fallback : string) : string := if str_truthy s then s else fallback.

End Arr.

(** ** The dashboard page ([Index]) *)

Module Dashboard.

Import Num.

Record Expense := {
  id : number;
  description : string;
  date : string;
  amount : number;
  category : string;
  ai_category : option string;
  payer_name : string;
  user_share : number
}.

Record MonthlyData := {
  month : string;
  total : number;
  count : number
}.

Record YearlyData := {
  year : string;
  year_total : number;
  year_count : number
}.

(** The snapshot as the page holds it. The interface declares every list;
    the page still guards against a snapshot without [monthly], so that
    field may be missing here. *)
Record DashboardData := {
  total_expenses : number;
  expense_count : number;
  categories : list Chart.CategoryData;
  monthly : option (list MonthlyData);
  yearly : list YearlyData;
  recent_expenses : list Expense;
  this_month_expenses : option number
}.

(** [filteredMonthly]; [data] is [None] until the snapshot has loaded, and
    the empty [selectedYear] means all years. *)
Definition filteredMonthly (data : option DashboardData) (selectedYear : string)
    : list MonthlyData :=
  match data with
  | None => []
  | Some d =>
      match monthly d with
      | None => []
      | Some ms =>
          if String.eqb selectedYear EmptyString then ms
          else filter (fun m => String.prefix selectedYear (month m)) ms
      end
  end.

(** [avgMonthly] *)
Definition avgMonthly (filtered : list MonthlyData) : number :=
  match List.length filtered with
  | O => zero
  | S _ =>
      div (fold_left (fun sum m => add sum (total m)) filtered zero)
          (of_Z (Z.of_nat (List.length filtered)))
  end.


(** [x || 0] *)
Definition orZero (x : number) : number := if Num.truthy x then x else zero.

(** [availableYears]; with [yearly] declared a list, the guard
    [!data?.yearly] holds exactly for the snapshot not yet loaded. *)
Definition availableYears (data : option DashboardData) : list string :=
  match data with
  | None => []
  | Some d => rev (Arr.sort (map year (yearly d)))
  end.

Record Totals := {
  totalExpenses : number;
  expenseCount : number
}.

(** The totals shown for [selectedYear]. *)
Definition totals (data : option DashboardData) (selectedYear : string) : Totals :=
  match data with
  | None => {| totalExpenses := zero; expenseCount := zero |}
  | Some d =>
      if String.eqb selectedYear EmptyString then
        {| totalExpenses := orZero (total_expenses d);
           expenseCount := orZero (expense_count d) |}
      else
        match find (fun y => String.eqb (year y) selectedYear) (yearly d) with
        | Some yearData =>
            {| totalExpenses := orZero (year_total yearData);
               expenseCount := orZero (year_count yearData) |}
        | None => {| totalExpenses := zero; expenseCount := zero |}
        end
  end.

(** [thisMonthData]; [currentMonth] is the year and month of the clock. *)
Definition thisMonthData (data : option DashboardData) (currentMonth : string)
    : option MonthlyData :=
  match data with
  | None => None
  | Some d =>
      match monthly d with
      | None => None
      | Some ms => find (fun m => String.eqb (month m) currentMonth) ms
      end
  end.

(** [data?.this_month_expenses || thisMonthData?.total || 0] *)
Definition thisMonthExpenses (data : option DashboardData) (currentMonth : string) : number :=
  let fromMonthly :=
    match thisMonthData data currentMonth with
    | Some m => orZero (total m)
    | None => zero
    end in
  match data with
  | Some d =>
      match this_month_expenses d with
      | Some x => if Num.truthy x then x else fromMonthly
      | None => fromMonthly
      end
  | None => fromMonthly
  end.

End Dashboard.

(** ** The monthly chart ([MonthlyExpensesChart]) *)

Module MonthlyChart.

Import Num JS.

(** [availableYears] *)
Definition availableYears (data : list Dashboard.MonthlyData) : list string :=
  rev (Arr.sort (Arr.unique (map (fun m => Arr.firstPart "-" (Dashboard.month m)) data))).

(** The initial [selectedYear]: [availableYears[0] || currentYear], where
    [currentYear] is the year of the clock. *)
Definition initialYear (data : list Dashboard.MonthlyData) (currentYear : string) : string :=
  match availableYears data with
  | y :: _ => Arr.orString y currentYear
  | [] => currentYear
  end.

Record Bar := {
  label : string;
  amount : number;
  fullMonth : string
}.

Section Labelled.

(** The short month name the platform prints for a year-month key. *)
Variable monthLabel : string -> string.

(** [chartData] *)
Definition chartData (data : list Dashboard.MonthlyData) (selectedYear : string) : list Bar :=
  map (fun m => {| label := monthLabel (Dashboard.month m);
                   amount := Dashboard.total m;
                   fullMonth := Dashboard.month m |})
      (rev (filter (fun m => String.prefix selectedYear (Dashboard.month m)) data)).

(** [yearTotal] *)
Definition yearTotal (bars : list Bar) : number :=
  fold_left (fun sum m => add sum (amount m)) bars zero.

End Labelled.

End MonthlyChart.

(** ** The recent expenses table ([RecentExpenses]) *)

Module Recent.

(** The [map] callback from index [i] on: the serial number is [index + 1]. *)
Fixpoint numbered {A : Type} (i : nat) (l : list A) : list (nat * A) :=
  match l with
  | [] => []
  | e :: rest => ((i + 1)%nat, e) :: numbered (S i) rest
  end.

(** The rows of the table: [data.slice(0, 10).map(...)]. *)
Definition rows (data : list Dashboard.Expense) : list (nat * Dashboard.Expense) :=
  numbered 0 (firstn 10 data).

End Recent.

(** ** The header ([DashboardHeader]) *)

Module Header.

Import Num JS.

Record User := {
  id : number;
  first_name : string;
  last_name : string;
  email : string
}.

(** The auth status at its declared type. *)
Record AuthStatus := {
  authenticated : bool;
  user : option User
}.

(** The [user] state once [fetchAuthStatus()] has settled as [p]: the
    [then] callback stores [data.user], the [catch] callback only logs. *)
Definition onAuthStatus (p : Promise AuthStatus) (current : option User) : option User :=
  match p with
  | Fulfilled data => user data
  | Rejected _ => current
  | Pending => current
  end.

(** [user?.first_name || "User"] *)
Definition userName (u : option User) : string :=
  match u with
  | Some u' => Arr.orString (first_name u') "User"
  | None => "User"
  end.

End Header.

(** ** The expenses page ([Expenses]) *)

Module ExpensesPage.

Import Num JS.

(** [selected || undefined] *)
Definition orUndefined (s : string) : option string :=
  if str_truthy s then Some s else None.

(** The argument of [fetchExpenses] for the three selections. *)
Definition requestParams (selectedYear selectedMonth selectedCategory : string)
    : option Api.ExpenseParams :=
  Some {| Api.year := orUndefined selectedYear;
          Api.month := orUndefined selectedMonth;
          Api.category := orUndefined selectedCategory |}.

Record PageState := {
  expenses : list Dashboard.Expense;
  loading : bool
}.

(** The state once the load has settled as [fetched]: the effect sets
    [loading], [then] stores the list, [catch] logs and [finally] clears
    [loading]. *)
Definition onLoad (fetched : Promise (list Dashboard.Expense)) (st : PageState) : PageState :=
  match fetched with
  | Fulfilled data => {| expenses := data; loading := false |}
  | Rejected _ => {| expenses := expenses st; loading := false |}
  | Pending => {| expenses := expenses st; loading := true |}
  end.

(** [e.ai_category || e.category] *)
Definition shownCategory (e : Dashboard.Expense) : string :=
  match Dashboard.ai_category e with
  | Some a => Arr.orString a (Dashboard.category e)
  | None => Dashboard.category e
  end.


(** [categories] *)
Definition categories (expenses : list Dashboard.Expense) : list string :=
  Arr.sort (Arr.unique (filter str_truthy (map shownCategory expenses))).

Section Search.

(** [String.prototype.toLowerCase] of the platform. *)
Variable toLowerCase : string -> string.

(** The predicate of [filteredExpenses]. *)
Definition matches (searchTerm : string) (e : Dashboard.Expense) : bool :=
  let aiCat := Arr.orString (shownCategory e) EmptyString in
  Arr.includes (toLowerCase (Dashboard.description e)) (toLowerCase searchTerm)
  || Arr.includes (toLowerCase aiCat) (toLowerCase searchTerm).

Definition filteredExpenses (expenses : list Dashboard.Expense) (searchTerm : string)
    : list Dashboard.Expense :=
  filter (matches searchTerm) expenses.

(** [totalAmount]: the sum of the shares of the rows shown. *)
Definition totalAmount (filtered : list Dashboard.Expense) : number :=
  fold_left (fun sum e => add sum (Dashboard.user_share e)) filtered zero.

End Search.

End ExpensesPage.

(** ** The page of the expenses the user paid ([PaidByMe]) *)

Module PaidByMePage.

Import Num JS.

(** The [userName] state once [fetchAuthStatus()] has settled as [p]:
    [if (data.user) setUserName(data.user.first_name)]. *)
Definition onAuthStatus (p : Promise Header.AuthStatus) (userName : string) : string :=
  match p with
  | Fulfilled data =>
      match Header.user data with
      | Some u => Header.first_name u
      | None => userName
      end
  | Rejected _ => userName
  | Pending => userName
  end.

(** The call of the second effect: none while [userName] is empty. *)
Definition loadCall (userName selectedYear selectedMonth selectedCategory : string)
    : option (option Api.ExpenseParams) :=
  if str_truthy userName
  then Some (ExpensesPage.requestParams selectedYear selectedMonth selectedCategory)
  else None.

(** The requests the second effect sends over [net]. *)
Definition loadRequests (net : Net.Network)
    (userName selectedYear selectedMonth selectedCategory : string) : list Net.Request :=
  match loadCall userName selectedYear selectedMonth selectedCategory with
  | Some params => Api.sent (Api.fetchExpenses net params)
  | None => []
  end.

(** The state once the second effect has run and its load has settled as
    [fetched]: only the expenses whose payer is [userName] are stored. *)
Definition onLoad (userName : string) (fetched : Promise (list Dashboard.Expense))
    (st : ExpensesPage.PageState) : ExpensesPage.PageState :=
  if str_truthy userName then
    match fetched with
    | Fulfilled data =>
        {| ExpensesPage.expenses :=
             filter (fun e => String.eqb (Dashboard.payer_name e) userName) data;
           ExpensesPage.loading := false |}
    | Rejected _ =>
        {| ExpensesPage.expenses := ExpensesPage.expenses st; ExpensesPage.loading := false |}
    | Pending =>
        {| ExpensesPage.expenses := ExpensesPage.expenses st; ExpensesPage.loading := true |}
    end
  else st.

(** [totalAmount]: the sum of the full amounts of the rows shown. *)
Definition totalAmount (filtered : list Dashboard.Expense) : number :=
  fold_left (fun sum e => add sum (Dashboard.amount e)) filtered zero.

End PaidByMePage.

(** * Vocabulary of the properties *)

Import Num JS Net Api.

(** ** Exchanges *)

(** The network answers [req] with the response [r]. *)
Definition answered (net : Network) (req : Request) (r : Response) : Prop :=
  exists t, net req = {| latency := Some t; transport := Answer r |}.

(** The same, within [d] milliseconds. *)
Definition answered_by (d : N) (net : Network) (req : Request) (r : Response) : Prop :=
  exists t, (t <= d)%N /\ net req = {| latency := Some t; transport := Answer r |}.

(** The network that answers every request after [t] milliseconds with [r]. *)
Definition slow (t : N) (r : Response) : Network :=
  fun _ => {| latency := Some t; transport := Answer r |}.

(** The network that answers every request at once with [r]. *)
Definition always (r : Response) : Network := slow 0 r.

(** A success response carrying the JSON value [v], and a response of
    status [s] without a JSON body. *)
Definition success (v : JSValue) : Response := {| status := 200; payload := Some v |}.
Definition failure (s : N) : Response := {| status := s; payload := None |}.

(** ** Envelopes *)

(** A bare snapshot: an object without a [dashboard] property. *)
Definition bare (v : JSValue) : Prop :=
  exists props, v = JObj props /\ own "dashboard" props = None.

(** [body] wraps [inner] under [dashboard]. *)
Definition wraps (body inner : JSValue) : Prop :=
  exists props, body = JObj props /\ own "dashboard" props = Some inner.

Definition falsy (v : JSValue) : Prop := truthy v = false.

(** [json.k] on an object. *)
Definition read (k : string) (props : list (string * JSValue)) : JSValue :=
  match own k props with
  | Some v => v
  | None => JUndefined
  end.

(** ** Requests *)

(** A filter is given when the parameter object has it with a non-empty
    value. *)
Definition given (f : ExpenseParams -> option string) (params : option ExpenseParams)
    (value : string) : Prop :=
  field f params = Some value /\ value <> EmptyString.

(** The query of a URL: what follows its first question mark. *)
Definition queryOf (u : string) : string := snd (cut "?" u).

(** Occurrence of a byte in a string. *)
Fixpoint occurs (c : ascii) (s : string) : bool :=
  match s with
  | EmptyString => false
  | String c' rest => Ascii.eqb c' c || occurs c rest
  end.

(** One [name=value] of a serialized query. *)
Definition piece (kv : string * string) : string :=
  encode (fst kv) ++ "=" ++ encode (snd kv).

(** The text [{"days_back":30}]. *)
Definition daysBack30 : string :=
  String "{" (String dquote ("days_back" ++ String dquote ":30}")).

(** The request [syncExpenses] sends for its argument. *)
Definition syncRequestOf (daysBack : option number) : Request :=
  syncRequest (match daysBack with Some d => d | None => of_Z 30 end).

(** ** Failures *)

(** The error each operation throws on a non-success status. *)
Definition dashboardFailed : JSError := Error "Failed to fetch dashboard data".
Definition expensesFailed : JSError := Error "Failed to fetch expenses".
Definition syncFailed : JSError := Error "Failed to sync expenses".
Definition authFailed : JSError := Error "Failed to fetch auth status".

(** The rejection of an operation carries the status when the status can
    be read off the error it rejects with. *)
Definition carries_status (run : Network -> Promise JSValue) (req : Request) : Prop :=
  exists status_of : JSError -> N,
    forall net r, answered_by dashboardTimeout net req r -> ok r = false ->
      exists e, run net = Rejected e /\ status_of e = status r.

(** ** Ratios *)

(** [x === 0] *)
Definition isZero (x : number) : Prop := eqb x zero = true.

(** ** Sample data *)

Definition sampleSnapshot : JSValue :=
  JObj [("total_expenses", JNum (of_Z 1000)); ("expense_count", JNum (of_Z 3))].

Definition wrappedSnapshot : JSValue := JObj [("dashboard", sampleSnapshot)].

Definition emptyEnvelope : list (string * JSValue) :=
  [("count", JNum zero); ("success", JBool true)].

Definition nullEnvelope : list (string * JSValue) :=
  [("expenses", JNull); ("dashboard", JNull); ("count", JNum zero)].

Definition anonymous : list (string * JSValue) := [("authenticated", JBool false)].

Definition syncReply : list (string * JSValue) :=
  [("message", JStr "Sync completed"); ("new_expenses", JNum (of_Z 7))].

Definition sampleParams : option ExpenseParams :=
  Some {| year := Some "2024"; month := Some EmptyString; category := Some "Food & Drink" |}.

Definition sampleCategories : list Chart.CategoryData :=
  [ {| Chart.category := "Food"; Chart.total := of_Z 500; Chart.count := of_Z 5 |};
    {| Chart.category := "Rent"; Chart.total := of_Z 300; Chart.count := of_Z 1 |};
    {| Chart.category := "Fuel"; Chart.total := of_Z 200; Chart.count := of_Z 2 |} ].

Definition zeroCategories : list Chart.CategoryData :=
  [ {| Chart.category := "Food"; Chart.total := zero; Chart.count := zero |};
    {| Chart.category := "Rent"; Chart.total := neg zero; Chart.count := zero |} ].

(** A stand-in for the currency formatter. *)
Definition plainAmount (x : number) : string := toFixed x 2.

(** ** Further vocabulary *)

(** The network that never answers, and the one whose transport fails at
    once. *)
Definition never : Network := fun _ => {| latency := None; transport := Failure |}.



(** A success response whose text is not JSON. *)
Definition garbled : Response := {| status := 200; payload := None |}.

(** The pairs one filter contributes to the query. *)
Definition keep (name : string) (v : option string) : URLSearchParams :=
  match v with
  | Some s => if str_truthy s then [(name, s)] else []
  | None => []
  end.

(** The text [{"days_back":null}]. *)
Definition nullDaysBack : string :=
  String "{" (String dquote ("days_back" ++ String dquote ":null}")).

(** A JSON body that is neither an object nor null. *)
Definition primitive (v : JSValue) : Prop :=
  match v with
  | JBool _ | JNum _ | JStr _ | JArr _ => True
  | _ => False
  end.

(** Orders on strings, by code unit. *)
Definition ascending (a b : string) : Prop := String.leb a b = true.
Definition strictlyDescending (a b : string) : Prop := String.ltb b a = true.

Definition isNaN (x : number) : Prop := x = S754_nan.

(** The auth outcome names no user: it did not resolve, or resolved
    without a user, or with a user whose first name is empty. *)
Definition anonymousOutcome (p : Promise Header.AuthStatus) : Prop :=
  forall data u, p = Fulfilled data -> Header.user data = Some u ->
    Header.first_name u = EmptyString.

(** ** Further sample data *)

Definition refundCategories : list Chart.CategoryData :=
  [ {| Chart.category := "Refund"; Chart.total := of_Z (-100); Chart.count := of_Z 1 |} ].

Definition sampleExpense (day payer label : string) (ai : option string) (paid : Z)
    : Dashboard.Expense :=
  {| Dashboard.id := of_Z 1; Dashboard.description := "Lunch"; Dashboard.date := day;
     Dashboard.amount := of_Z paid; Dashboard.category := label;
     Dashboard.ai_category := ai; Dashboard.payer_name := payer;
     Dashboard.user_share := of_Z paid |}.

Definition sampleExpenses : list Dashboard.Expense :=
  [ sampleExpense "2023-11-02" "Asha" "General" (Some "Food") 120;
    sampleExpense "2024-01-15" "Ravi" "Fuel" None 900;
    sampleExpense "2024-03-09" "Asha" EmptyString (Some EmptyString) 40 ].

Definition sampleMonthly : list Dashboard.MonthlyData :=
  [ {| Dashboard.month := "2024-02"; Dashboard.total := of_Z 500; Dashboard.count := of_Z 4 |};
    {| Dashboard.month := "2023-12"; Dashboard.total := of_Z 300; Dashboard.count := of_Z 2 |} ].

Definition sampleDashboard : Dashboard.DashboardData :=
  {| Dashboard.total_expenses := of_Z 800; Dashboard.expense_count := of_Z 6;
     Dashboard.categories := sampleCategories;
     Dashboard.monthly := Some sampleMonthly;
     Dashboard.yearly :=
       [ {| Dashboard.year := "2023"; Dashboard.year_total := of_Z 300;
            Dashboard.year_count := of_Z 2 |};
         {| Dashboard.year := "2024"; Dashboard.year_total := of_Z 500;
            Dashboard.year_count := of_Z 4 |} ];
     Dashboard.recent_expenses := sampleExpenses;
     Dashboard.this_month_expenses := Some zero |}.

(** Lower case of the letters A to Z, a stand-in for [toLowerCase]. *)
Definition lowerAscii (c : ascii) : ascii :=
  let n := N_of_ascii c in
  if N.leb 65 n && N.leb n 90 then ascii_of_N (n + 32) else c.

Fixpoint lowerCase (s : string) : string :=
  match s with
  | EmptyString => EmptyString
  | String c rest => String (lowerAscii c) (lowerCase rest)
  end.

(** A stand-in for the month names of the platform. *)
Definition monthKey (key : string) : string := snd (cut "-" key).

(** * Properties *)

(** ** Exchanges *)

Lemma always_answered (r : Response) (req : Request) : answered (always r) req r.
Proof. exists 0%N. reflexivity. Qed.

Lemma always_answered_by (d : N) (r : Response) (req : Request) :
  answered_by d (always r) req r.
Proof. exists 0%N. split; [apply N.le_0_l | reflexivity]. Qed.

Lemma fetch_answered (net : Network) (req : Request) (r : Response) :
  answered net req r -> fetch net req = Fulfilled r.
Proof.
  intros [t Hnet]. unfold fetch. rewrite Hnet. reflexivity.
Qed.

Lemma fetch_with_abort_answered (d : N) (net : Network) (req : Request) (r : Response) :
  answered_by d net req r -> fetch_with_abort net req d = (Fulfilled r, false).
Proof.
  intros [t [Ht Hnet]]. unfold fetch_with_abort, arrives_by. rewrite Hnet. simpl.
  apply N.leb_le in Ht. rewrite Ht. reflexivity.
Qed.

(** What the two enveloped operations do with a success response. *)
Lemma fetchDashboard_success (net : Network) (r : Response) (body : JSValue) :
  answered_by dashboardTimeout net dashboardRequest r ->
  ok r = true -> payload r = Some body ->
  outcome (fetchDashboard net) = unwrapDashboard body.
Proof.
  intros Hans Hok Hbody. unfold fetchDashboard.
  rewrite (fetch_with_abort_answered _ _ _ _ Hans). simpl.
  rewrite Hok. unfold json. rewrite Hbody. reflexivity.
Qed.

Lemma fetchExpenses_success (net : Network) (params : option ExpenseParams)
    (r : Response) (body : JSValue) :
  answered net (GET (expensesUrl params)) r ->
  ok r = true -> payload r = Some body ->
  outcome (fetchExpenses net params) = unwrapExpenses body.
Proof.
  intros Hans Hok Hbody. unfold fetchExpenses. simpl.
  rewrite (fetch_answered _ _ _ Hans). simpl.
  rewrite Hok. unfold json. rewrite Hbody. reflexivity.
Qed.

(** ** The dashboard envelope *)

Lemma unwrapDashboard_bare (v : JSValue) : bare v -> unwrapDashboard v = Fulfilled v.
Proof.
  intros [props [-> Hnone]]. unfold unwrapDashboard. simpl. rewrite Hnone. reflexivity.
Qed.

Lemma unwrapDashboard_wraps (body inner : JSValue) :
  wraps body inner -> truthy inner = true -> unwrapDashboard body = Fulfilled inner.
Proof.
  intros [props [-> Hsome]] Htruthy. unfold unwrapDashboard. simpl. rewrite Hsome.
  simpl. unfold or_else. rewrite Htruthy. reflexivity.
Qed.

Lemma bare_truthy (v : JSValue) : bare v -> truthy v = true.
Proof. intros [props [-> _]]. reflexivity. Qed.

(** C1. When the success body wraps a snapshot under [dashboard],
    [fetchDashboard] resolves to the snapshot; when the body is the bare
    snapshot, it resolves to the body; in both cases unwrapping a second
    time gives what unwrapping once gave. *)
Theorem fetchDashboard_unwrap_idempotent
    (net : Network) (r : Response) (body snapshot : JSValue) :
  answered_by dashboardTimeout net dashboardRequest r ->
  ok r = true -> payload r = Some body ->
  bare snapshot ->
  wraps body snapshot \/ body = snapshot ->
  outcome (fetchDashboard net) = Fulfilled snapshot /\
  bind (unwrapDashboard body) unwrapDashboard = unwrapDashboard body.
Proof.
  intros Hans Hok Hbody Hbare Hshape.
  rewrite (fetchDashboard_success _ _ _ Hans Hok Hbody).
  assert (Hone : unwrapDashboard body = Fulfilled snapshot).
  { destruct Hshape as [Hwraps | ->].
    - apply unwrapDashboard_wraps; [exact Hwraps | apply bare_truthy; exact Hbare].
    - apply unwrapDashboard_bare; exact Hbare. }
  split; [exact Hone |].
  rewrite Hone. simpl. apply unwrapDashboard_bare; exact Hbare.
Qed.

Lemma fetchDashboard_unwrap_idempotent_witness :
  outcome (fetchDashboard (always (success wrappedSnapshot))) = Fulfilled sampleSnapshot /\
  bind (unwrapDashboard wrappedSnapshot) unwrapDashboard = unwrapDashboard wrappedSnapshot.
Proof.
  apply (fetchDashboard_unwrap_idempotent
           (always (success wrappedSnapshot)) (success wrappedSnapshot)
           wrappedSnapshot sampleSnapshot).
  - apply always_answered_by.
  - reflexivity.
  - reflexivity.
  - eexists. split; reflexivity.
  - left. eexists. split; reflexivity.
Defined.

(** ** The expenses envelope *)

(** C5. A success response whose body is an object without an [expenses]
    property makes [fetchExpenses] resolve to the empty list. *)
Theorem fetchExpenses_missing_field_empty
    (net : Network) (params : option ExpenseParams) (r : Response)
    (props : list (string * JSValue)) :
  answered net (GET (expensesUrl params)) r ->
  ok r = true -> payload r = Some (JObj props) ->
  own "expenses" props = None ->
  outcome (fetchExpenses net params) = Fulfilled (JArr []).
Proof.
  intros Hans Hok Hbody Hnone.
  rewrite (fetchExpenses_success _ _ _ _ Hans Hok Hbody).
  unfold unwrapExpenses. simpl. rewrite Hnone. reflexivity.
Qed.

Lemma fetchExpenses_missing_field_empty_witness :
  outcome (fetchExpenses (always (success (JObj emptyEnvelope))) None) = Fulfilled (JArr []).
Proof.
  apply (fetchExpenses_missing_field_empty _ None (success (JObj emptyEnvelope)) emptyEnvelope).
  - apply always_answered.
  - reflexivity.
  - reflexivity.
  - reflexivity.
Defined.

(** The falsy values a JSON body can hold. *)
Lemma falsy_json_values :
  falsy JNull /\ falsy (JBool false) /\ falsy (JNum (of_Z 0)) /\ falsy (JStr EmptyString).
Proof. unfold falsy. repeat split. Qed.

(** C10. The fallback of both envelopes tests falsiness, not absence:
    whether the wrapper property is missing or present with a falsy value
    (null, false, 0, the empty string), [fetchExpenses] resolves to the empty
    list and [fetchDashboard] to the whole body. *)
Theorem envelope_fallback_on_falsy
    (net : Network) (params : option ExpenseParams) (r : Response)
    (props : list (string * JSValue)) (v : JSValue) :
  ok r = true -> payload r = Some (JObj props) ->
  falsy v ->
  (answered net (GET (expensesUrl params)) r ->
   own "expenses" props = Some v \/ own "expenses" props = None ->
   outcome (fetchExpenses net params) = Fulfilled (JArr [])) /\
  (answered_by dashboardTimeout net dashboardRequest r ->
   own "dashboard" props = Some v \/ own "dashboard" props = None ->
   outcome (fetchDashboard net) = Fulfilled (JObj props)).
Proof.
  intros Hok Hbody Hfalsy. unfold falsy in Hfalsy. split.
  - intros Hans Hprop.
    rewrite (fetchExpenses_success _ _ _ _ Hans Hok Hbody).
    unfold unwrapExpenses, or_else. simpl.
    destruct Hprop as [-> | ->]; simpl; [rewrite Hfalsy |]; reflexivity.
  - intros Hans Hprop.
    rewrite (fetchDashboard_success _ _ _ Hans Hok Hbody).
    unfold unwrapDashboard, or_else. simpl.
    destruct Hprop as [-> | ->]; simpl; [rewrite Hfalsy |]; reflexivity.
Qed.

Lemma envelope_fallback_on_falsy_witness :
  outcome (fetchExpenses (always (success (JObj nullEnvelope))) None) = Fulfilled (JArr []) /\
  outcome (fetchDashboard (always (success (JObj nullEnvelope)))) = Fulfilled (JObj nullEnvelope).
Proof.
  destruct (envelope_fallback_on_falsy (always (success (JObj nullEnvelope))) None
              (success (JObj nullEnvelope)) nullEnvelope JNull
              eq_refl eq_refl eq_refl) as [Hexpenses Hdashboard].
  split.
  - apply Hexpenses; [apply always_answered | left; reflexivity].
  - apply Hdashboard; [apply always_answered_by | left; reflexivity].
Defined.

(** ** The auth status *)

(** C7. On a success response whose body is an object, [fetchAuthStatus]
    resolves to the [authenticated] value of the body together with its
    user: a user object is returned as it is, and a missing user, like a
    null one, becomes [null]. The promise is fulfilled in each case. *)
Theorem fetchAuthStatus_user_or_null
    (net : Network) (r : Response) (props : list (string * JSValue)) :
  answered net authRequest r ->
  ok r = true -> payload r = Some (JObj props) ->
  exists result,
    outcome (fetchAuthStatus net) = Fulfilled result /\
    authenticated result = read "authenticated" props /\
    (forall fields, own "user" props = Some (JObj fields) -> user result = JObj fields) /\
    (own "user" props = None -> user result = JNull) /\
    (own "user" props = Some JNull -> user result = JNull).
Proof.
  intros Hans Hok Hbody.
  exists {| authenticated := read "authenticated" props;
            user := or_else (read "user" props) JNull |}.
  split.
  - unfold fetchAuthStatus. simpl. rewrite (fetch_answered _ _ _ Hans). simpl.
    rewrite Hok. unfold json. rewrite Hbody. simpl. unfold read.
    destruct (own "authenticated" props); destruct (own "user" props); reflexivity.
  - simpl. unfold read. split; [reflexivity |]. split; [| split].
    + intros fields ->. reflexivity.
    + intros ->. reflexivity.
    + intros ->. reflexivity.
Qed.

Lemma fetchAuthStatus_user_or_null_witness :
  exists result,
    outcome (fetchAuthStatus (always (success (JObj anonymous)))) = Fulfilled result /\
    authenticated result = JBool false /\
    user result = JNull.
Proof.
  destruct (fetchAuthStatus_user_or_null
              (always (success (JObj anonymous))) (success (JObj anonymous)) anonymous
              (always_answered _ _) eq_refl eq_refl)
    as [result [Hout [Hauth [_ [Hnone _]]]]].
  exists result. split; [exact Hout |]. split; [exact Hauth |].
  apply Hnone. reflexivity.
Defined.

(** ** The sync request *)

(** C6. [syncExpenses] without argument behaves as [syncExpenses(30)];
    that call sends one POST to [/api/sync] whose body is the JSON text
    [{"days_back":30}]; and on a success response it resolves to the parsed
    body itself, so the [new_expenses] of the result is the response's. *)
Theorem syncExpenses_default_body_count (net : Network) :
  syncExpenses net None = syncExpenses net (Some (of_Z 30)) /\
  sent (syncExpenses net (Some (of_Z 30)))
    = [ {| method := "POST"; url := "/api/sync";
           headers := [("Content-Type", "application/json")];
           body := Some daysBack30 |} ] /\
  (forall r props count,
      answered net (syncRequest (of_Z 30)) r ->
      ok r = true -> payload r = Some (JObj props) ->
      own "new_expenses" props = Some count ->
      outcome (syncExpenses net (Some (of_Z 30))) = Fulfilled (JObj props) /\
      bind (outcome (syncExpenses net (Some (of_Z 30)))) (fun v => member v "new_expenses")
        = Fulfilled count).
Proof.
  split; [reflexivity |]. split; [vm_compute; reflexivity |].
  intros r props count Hans Hok Hbody Hcount.
  assert (Hout : outcome (syncExpenses net (Some (of_Z 30))) = Fulfilled (JObj props)).
  { unfold syncExpenses. cbv beta iota zeta. unfold outcome.
    rewrite (fetch_answered _ _ _ Hans). simpl.
    rewrite Hok. unfold json. rewrite Hbody. reflexivity. }
  split; [exact Hout |].
  rewrite Hout. simpl. rewrite Hcount. reflexivity.
Qed.

Lemma syncExpenses_default_body_count_witness :
  outcome (syncExpenses (always (success (JObj syncReply))) (Some (of_Z 30)))
    = Fulfilled (JObj syncReply) /\
  bind (outcome (syncExpenses (always (success (JObj syncReply))) (Some (of_Z 30))))
       (fun v => member v "new_expenses")
    = Fulfilled (JNum (of_Z 7)).
Proof.
  destruct (syncExpenses_default_body_count (always (success (JObj syncReply))))
    as [_ [_ Hcount]].
  apply (Hcount (success (JObj syncReply)) syncReply (JNum (of_Z 7))).
  - apply always_answered.
  - reflexivity.
  - reflexivity.
  - reflexivity.
Defined.

(** ** Failures *)

(** C3 as stated does not hold: the statuses 404 and 500 give
    [fetchDashboard] the same rejection, so no status can be read off it. *)
Lemma request_failed_carries_no_status :
  ~ carries_status (fun net => outcome (fetchDashboard net)) dashboardRequest.
Proof.
  intros [status_of H].
  destruct (H (always (failure 404)) (failure 404) (always_answered_by _ _ _) eq_refl)
    as [e1 [H1 S1]].
  destruct (H (always (failure 500)) (failure 500) (always_answered_by _ _ _) eq_refl)
    as [e2 [H2 S2]].
  vm_compute in H1, H2.
  injection H1 as <-. injection H2 as <-.
  rewrite S1 in S2. discriminate S2.
Qed.

(** C3, amended. On a non-success status every operation rejects with a
    plain [Error] whose message is fixed per operation and tells nothing of
    the status. That rejection differs from the ones the operation passes on
    from the platform: the abort error of the dashboard timeout, the syntax
    error of a body that is not JSON, and the type error of a failed
    transport. *)
Theorem request_failed_generic_error (r : Response) :
  ok r = false ->
  (forall net, answered_by dashboardTimeout net dashboardRequest r ->
     outcome (fetchDashboard net) = Rejected dashboardFailed) /\
  (forall net params, answered net (GET (expensesUrl params)) r ->
     outcome (fetchExpenses net params) = Rejected expensesFailed) /\
  (forall net daysBack, answered net (syncRequestOf daysBack) r ->
     outcome (syncExpenses net daysBack) = Rejected syncFailed) /\
  (forall net, answered net authRequest r ->
     outcome (fetchAuthStatus net) = Rejected authFailed) /\
  (forall e, In e [dashboardFailed; expensesFailed; syncFailed; authFailed] ->
     e <> AbortError /\ e <> SyntaxError /\ e <> TypeError).
Proof.
  intros Hbad. split; [| split; [| split; [| split]]].
  - intros net Hans. unfold fetchDashboard.
    rewrite (fetch_with_abort_answered _ _ _ _ Hans). simpl. rewrite Hbad. reflexivity.
  - intros net params Hans. unfold fetchExpenses. simpl.
    rewrite (fetch_answered _ _ _ Hans). simpl. rewrite Hbad. reflexivity.
  - intros net daysBack Hans. unfold syncExpenses. cbv beta iota zeta. unfold outcome.
    unfold syncRequestOf in Hans.
    rewrite (fetch_answered _ _ _ Hans). simpl. rewrite Hbad. reflexivity.
  - intros net Hans. unfold fetchAuthStatus. simpl.
    rewrite (fetch_answered _ _ _ Hans). simpl. rewrite Hbad. reflexivity.
  - intros e He. simpl in He.
    destruct He as [<- | [<- | [<- | [<- | []]]]]; repeat split; discriminate.
Qed.

Lemma request_failed_generic_error_witness :
  outcome (fetchDashboard (always (failure 404))) = Rejected dashboardFailed /\
  outcome (fetchExpenses (always (failure 404)) None) = Rejected expensesFailed /\
  outcome (syncExpenses (always (failure 404)) None) = Rejected syncFailed /\
  outcome (fetchAuthStatus (always (failure 404))) = Rejected authFailed.
Proof.
  destruct (request_failed_generic_error (failure 404) eq_refl)
    as [Hdash [Hexp [Hsync [Hauth _]]]].
  split; [| split; [| split]].
  - apply Hdash. apply always_answered_by.
  - apply Hexp. apply always_answered.
  - apply Hsync. apply always_answered.
  - apply Hauth. apply always_answered.
Defined.

(** The platform's failures reach the caller of [fetchDashboard] as they
    were raised. *)
Lemma platform_failures_pass_through (net : Network) :
  (forall t, net dashboardRequest = {| latency := Some t; transport := Failure |} ->
     (t <= dashboardTimeout)%N ->
     outcome (fetchDashboard net) = Rejected TypeError) /\
  (forall r, answered_by dashboardTimeout net dashboardRequest r ->
     ok r = true -> payload r = None ->
     outcome (fetchDashboard net) = Rejected SyntaxError).
Proof.
  split.
  - intros t Hnet Ht. unfold fetchDashboard, fetch_with_abort, arrives_by.
    rewrite Hnet. simpl. apply N.leb_le in Ht. rewrite Ht. reflexivity.
  - intros r Hans Hok Hnone. unfold fetchDashboard.
    rewrite (fetch_with_abort_answered _ _ _ _ Hans). simpl.
    rewrite Hok. unfold json. rewrite Hnone. reflexivity.
Qed.

(** ** The dashboard timeout *)

(** C4. When no response arrives within the 5000 ms of the timer, the
    timer aborts the request and [fetchDashboard] rejects with the abort
    error: it neither resolves nor stays pending. *)
Theorem fetchDashboard_timeout (net : Network) :
  (latency (net dashboardRequest) = None \/
   exists t, latency (net dashboardRequest) = Some t /\ (5000 < t)%N) ->
  aborted (fetchDashboard net) = true /\
  outcome (fetchDashboard net) = Rejected AbortError.
Proof.
  intros Hlate.
  assert (Hmiss : arrives_by dashboardTimeout (net dashboardRequest) = false).
  { unfold arrives_by. destruct Hlate as [-> | [t [-> Ht]]]; [reflexivity |].
    apply N.leb_gt. exact Ht. }
  unfold fetchDashboard, fetch_with_abort. rewrite Hmiss. split; reflexivity.
Qed.

Lemma fetchDashboard_timeout_witness :
  aborted (fetchDashboard (slow 5001 (success sampleSnapshot))) = true /\
  outcome (fetchDashboard (slow 5001 (success sampleSnapshot))) = Rejected AbortError.
Proof.
  apply (fetchDashboard_timeout (slow 5001 (success sampleSnapshot))).
  right. exists 5001%N. split; reflexivity.
Defined.

(** ** The query of the expenses request *)

Ltac each_byte c := destruct c as [[] [] [] [] [] [] [] []].

Lemma append_assoc (a b c : string) : (a ++ b) ++ c = a ++ (b ++ c).
Proof. induction a as [| x a IH]; simpl; [reflexivity | rewrite IH; reflexivity]. Qed.

Lemma append_empty_r (a : string) : a ++ EmptyString = a.
Proof. induction a as [| x a IH]; simpl; [reflexivity | rewrite IH; reflexivity]. Qed.

(** Byte by byte, decoding undoes encoding, and encoding writes neither
    [&] nor [=]. *)
Lemma decode_encode_byte (c : ascii) (s : string) :
  decode (encode_byte c ++ s) = String c (decode s).
Proof. each_byte c; reflexivity. Qed.

Lemma occurs_encode_byte (sep c : ascii) (s : string) :
  sep = "&"%char \/ sep = "="%char ->
  occurs sep (encode_byte c ++ s) = occurs sep s.
Proof. intros [-> | ->]; each_byte c; reflexivity. Qed.

Lemma decode_encode_app (s t : string) : decode (encode s ++ t) = s ++ decode t.
Proof.
  induction s as [| c s IH]; simpl; [reflexivity |].
  rewrite append_assoc, decode_encode_byte, IH. reflexivity.
Qed.

Lemma decode_encode (s : string) : decode (encode s) = s.
Proof.
  rewrite <- (append_empty_r (encode s)), decode_encode_app. apply append_empty_r.
Qed.

Lemma occurs_encode_app (sep : ascii) (s t : string) :
  sep = "&"%char \/ sep = "="%char ->
  occurs sep (encode s ++ t) = occurs sep t.
Proof.
  intros Hsep. induction s as [| c s IH]; simpl; [reflexivity |].
  rewrite append_assoc, (occurs_encode_byte sep c _ Hsep). exact IH.
Qed.

Lemma occurs_encode (sep : ascii) (s : string) :
  sep = "&"%char \/ sep = "="%char -> occurs sep (encode s) = false.
Proof.
  intros Hsep. rewrite <- (append_empty_r (encode s)), (occurs_encode_app sep s _ Hsep).
  reflexivity.
Qed.

Lemma cut_app (sep : ascii) (a b : string) :
  occurs sep a = false -> cut sep (a ++ String sep b) = (a, b).
Proof.
  induction a as [| x a IH]; simpl; intros Hfree.
  - rewrite Ascii.eqb_refl. reflexivity.
  - apply orb_false_iff in Hfree. destruct Hfree as [Hx Ha].
    rewrite Hx, (IH Ha). reflexivity.
Qed.

Lemma split_app (sep : ascii) (a b : string) :
  occurs sep a = false -> split sep (a ++ String sep b) = a :: split sep b.
Proof.
  induction a as [| x a IH]; simpl; intros Hfree.
  - rewrite Ascii.eqb_refl. reflexivity.
  - apply orb_false_iff in Hfree. destruct Hfree as [Hx Ha].
    rewrite Hx, (IH Ha). reflexivity.
Qed.

Lemma split_free (sep : ascii) (a : string) :
  occurs sep a = false -> split sep a = [a].
Proof.
  induction a as [| x a IH]; simpl; intros Hfree; [reflexivity |].
  apply orb_false_iff in Hfree. destruct Hfree as [Hx Ha].
  rewrite Hx, (IH Ha). reflexivity.
Qed.

Lemma piece_free (kv : string * string) : occurs "&" (piece kv) = false.
Proof.
  unfold piece. rewrite occurs_encode_app by (left; reflexivity). simpl.
  apply occurs_encode. left; reflexivity.
Qed.

Lemma parse_piece_piece (kv : string * string) : parse_piece (piece kv) = [kv].
Proof.
  destruct kv as [k v]. unfold piece, parse_piece. simpl fst. simpl snd.
  assert (Hcut : cut "=" (encode k ++ "=" ++ encode v) = (encode k, encode v)).
  { apply cut_app. apply occurs_encode. right; reflexivity. }
  destruct (encode k ++ "=" ++ encode v) eqn:Heq.
  - destruct (encode k); discriminate Heq.
  - rewrite Hcut, !decode_encode. reflexivity.
Qed.

Lemma serialize_cons (kv : string * string) (l : URLSearchParams) :
  serialize (kv :: l) =
  match l with
  | [] => piece kv
  | _ :: _ => piece kv ++ String "&" (serialize l)
  end.
Proof. destruct l; reflexivity. Qed.

(** Parsing what [toString] printed gives the pairs back. *)
Lemma parse_serialize (l : URLSearchParams) : parse (serialize l) = l.
Proof.
  induction l as [| kv l IH]; [reflexivity |].
  rewrite serialize_cons. destruct l as [| kv' l'].
  - unfold parse. rewrite (split_free _ _ (piece_free kv)). simpl.
    rewrite parse_piece_piece. reflexivity.
  - unfold parse. rewrite (split_app _ _ _ (piece_free kv)). simpl flat_map.
    rewrite parse_piece_piece. unfold parse in IH. rewrite IH. reflexivity.
Qed.

Lemma serialize_truthy (l : URLSearchParams) :
  str_truthy (serialize l) = match l with [] => false | _ :: _ => true end.
Proof.
  destruct l as [| kv l]; [reflexivity |].
  rewrite serialize_cons.
  assert (Hpiece : exists c s, piece kv = String c s).
  { unfold piece. destruct (encode (fst kv)); simpl; eauto. }
  destruct Hpiece as [c [s Hpiece]]. rewrite Hpiece. destruct l; reflexivity.
Qed.

Lemma expensesUrl_query (params : option ExpenseParams) :
  queryOf (expensesUrl params) = serialize (expensesSearchParams params).
Proof.
  unfold expensesUrl. rewrite serialize_truthy.
  destruct (expensesSearchParams params) as [| kv l]; reflexivity.
Qed.

Ltac solve_given :=
  first [ left; split; [reflexivity | split; [reflexivity | discriminate]]
        | right; left; split; [reflexivity | split; [reflexivity | discriminate]]
        | right; right; split; [reflexivity | split; [reflexivity | discriminate]] ].

(** C2. Whatever filters are given, the parameters [fetchExpenses] sets
    are exactly the given non-empty ones, each once and with its value; the
    one request it sends goes to the URL built from them, and the query of
    that URL parses back to exactly these parameters. *)
Theorem fetchExpenses_sends_given_filters (params : option ExpenseParams) :
  let query := expensesSearchParams params in
  (forall name value,
      In (name, value) query <->
      (name = "year" /\ given year params value) \/
      (name = "month" /\ given month params value) \/
      (name = "category" /\ given category params value)) /\
  NoDup (map fst query) /\
  (forall net, sent (fetchExpenses net params) = [GET (expensesUrl params)]) /\
  parse (queryOf (expensesUrl params)) = query.
Proof.
  intros query. split; [| split; [| split]].
  - intros name value. subst query.
    destruct params as [[[[| y0 y] |] [[| m0 m] |] [[| c0 c] |]] |];
      unfold given; cbn; (split; [intros Hin | intros Hgiven]).
    all: try contradiction.
    all: try (repeat (destruct Hin as [Hin | Hin]; [injection Hin as <- <- |]);
              [.. | contradiction]; solve_given).
    all: destruct Hgiven as [[-> [Hf Hne]] | [[-> [Hf Hne]] | [-> [Hf Hne]]]];
         try discriminate Hf; injection Hf as <-; try (exfalso; apply Hne; reflexivity);
         tauto.
  - subst query.
    destruct params as [[[[| y0 y] |] [[| m0 m] |] [[| c0 c] |]] |]; cbn;
      repeat constructor; simpl; intuition discriminate.
  - reflexivity.
  - rewrite expensesUrl_query. apply parse_serialize.
Qed.

Lemma fetchExpenses_sends_given_filters_witness :
  In ("year", "2024") (expensesSearchParams sampleParams) /\
  ~ In ("month", EmptyString) (expensesSearchParams sampleParams) /\
  parse (queryOf (expensesUrl sampleParams)) = [("year", "2024"); ("category", "Food & Drink")].
Proof.
  pose proof (fetchExpenses_sends_given_filters sampleParams) as H. cbv zeta in H.
  destruct H as [Hin [_ [_ Hparse]]]. split; [| split].
  - apply Hin. left. split; [reflexivity |]. split; [reflexivity | discriminate].
  - intros Hmonth. apply Hin in Hmonth.
    destruct Hmonth as [[Hname _] | [[_ [_ Hne]] | [Hname _]]];
      [discriminate Hname | apply Hne; reflexivity | discriminate Hname].
  - rewrite Hparse. reflexivity.
Defined.

(** ** Ratios *)

Lemma isZero_not_gt (x : number) : isZero x -> gt x zero = false.
Proof.
  unfold isZero, eqb, gt, SFeqb, SFltb, zero.
  destruct x as [s | [|] | | [|] m e]; simpl; intros H; try reflexivity; discriminate H.
Qed.

Lemma segmentsFrom_zero (sum : number) (l : list Chart.CategoryData) :
  gt sum zero = false ->
  forall i cumulative s, In s (Chart.segmentsFrom sum i cumulative l) -> Chart.pct s = zero.
Proof.
  intros Hsum. induction l as [| c l IH]; intros i cumulative s Hin; simpl in Hin.
  - contradiction.
  - destruct Hin as [<- | Hin].
    + simpl. unfold Chart.share. rewrite Hsum. reflexivity.
    + eapply IH. exact Hin.
Qed.

Lemma categoriesFrom_zero (formatCurrency : number -> string) (sum : number)
    (l : list Chart.CategoryData) :
  gt sum zero = false ->
  forall i c, In c (Chart.categoriesFrom formatCurrency sum i l) -> Chart.percentage c = "0".
Proof.
  intros Hsum. induction l as [| c l IH]; intros i x Hin; simpl in Hin.
  - contradiction.
  - destruct Hin as [<- | Hin].
    + simpl. unfold Chart.percentageOf. rewrite Hsum. reflexivity.
    + eapply IH. exact Hin.
Qed.

(** C8. For categories whose totals are 500, 300 and 200, the grand total
    is 1000, the segment percentages are 50, 30 and 20, and the legend shows
    them as 50.0, 30.0 and 20.0. *)
Theorem category_percentages_500_300_200
    (formatCurrency : number -> string) (data : list Chart.CategoryData) :
  map Chart.total data = [of_Z 500; of_Z 300; of_Z 200] ->
  Chart.grandTotal data = of_Z 1000 /\
  map Chart.pct (Chart.segments data) = [of_Z 50; of_Z 30; of_Z 20] /\
  map Chart.percentage (Chart.categories formatCurrency data) = ["50.0"; "30.0"; "20.0"].
Proof.
  intros Htotals.
  destruct data as [| [n1 t1 c1] [| [n2 t2 c2] [| [n3 t3 c3] [| x rest]]]];
    try discriminate Htotals.
  simpl in Htotals. injection Htotals as -> -> ->.
  split; [| split]; vm_compute; reflexivity.
Qed.

Lemma category_percentages_500_300_200_witness :
  Chart.grandTotal sampleCategories = of_Z 1000 /\
  map Chart.pct (Chart.segments sampleCategories) = [of_Z 50; of_Z 30; of_Z 20] /\
  map Chart.percentage (Chart.categories plainAmount sampleCategories)
    = ["50.0"; "30.0"; "20.0"].
Proof.
  apply (category_percentages_500_300_200 plainAmount sampleCategories). reflexivity.
Defined.

(** C9. The ratios computed on the page never divide by zero: when the
    category totals sum to zero, every segment percentage is 0 and every
    legend percentage reads 0; when the filtered monthly list is empty, the
    monthly average is 0. *)
Theorem ratios_guarded_against_zero (formatCurrency : number -> string) :
  (forall data, isZero (Chart.grandTotal data) ->
     (forall s, In s (Chart.segments data) -> Chart.pct s = zero) /\
     (forall c, In c (Chart.categories formatCurrency data) -> Chart.percentage c = "0")) /\
  (forall data selectedYear,
     Dashboard.filteredMonthly data selectedYear = [] ->
     Dashboard.avgMonthly (Dashboard.filteredMonthly data selectedYear) = zero).
Proof.
  split.
  - intros data Hzero. apply isZero_not_gt in Hzero. split.
    + intros s. apply segmentsFrom_zero. exact Hzero.
    + intros c. apply categoriesFrom_zero. exact Hzero.
  - intros data selectedYear ->. reflexivity.
Qed.

Lemma ratios_guarded_against_zero_witness :
  map Chart.pct (Chart.segments zeroCategories) = [zero; zero] /\
  map Chart.percentage (Chart.categories plainAmount zeroCategories) = ["0"; "0"] /\
  Dashboard.avgMonthly (Dashboard.filteredMonthly None "2024") = zero.
Proof.
  destruct (ratios_guarded_against_zero plainAmount) as [Hchart Havg].
  destruct (Hchart zeroCategories eq_refl) as [Hseg Hleg].
  split; [| split].
  - rewrite (map_ext_in _ (fun _ => zero) _ Hseg). reflexivity.
  - rewrite (map_ext_in _ (fun _ => "0") _ Hleg). reflexivity.
  - apply Havg. reflexivity.
Defined.

(** * Further properties of the client *)

(** ** Operations without a timer *)

(** X1. [fetchExpenses], [syncExpenses] and [fetchAuthStatus] set no timer:
    when the network never answers, their promise stays pending and nothing
    is aborted. *)
Theorem untimed_operations_hang (net : Network) (params : option ExpenseParams)
    (daysBack : option number) :
  (latency (net (GET (expensesUrl params))) = None ->
     outcome (fetchExpenses net params) = Pending /\ aborted (fetchExpenses net params) = false) /\
  (latency (net (syncRequestOf daysBack)) = None ->
     outcome (syncExpenses net daysBack) = Pending /\ aborted (syncExpenses net daysBack) = false) /\
  (latency (net authRequest) = None ->
     outcome (fetchAuthStatus net) = Pending /\ aborted (fetchAuthStatus net) = false).
Proof.
  split; [| split].
  - intros Hnever. unfold fetchExpenses, fetch. simpl. rewrite Hnever. split; reflexivity.
  - intros Hnever. unfold syncRequestOf in Hnever. unfold syncExpenses, fetch.
    cbv beta iota zeta. unfold outcome, aborted. rewrite Hnever. split; reflexivity.
  - intros Hnever. unfold fetchAuthStatus, fetch. simpl. rewrite Hnever. split; reflexivity.
Qed.

Lemma untimed_operations_hang_witness :
  outcome (fetchExpenses never None) = Pending /\
  outcome (syncExpenses never None) = Pending /\
  outcome (fetchAuthStatus never) = Pending.
Proof.
  destruct (untimed_operations_hang never None None) as [Hexp [Hsync Hauth]].
  split; [| split].
  - apply Hexp. reflexivity.
  - apply Hsync. reflexivity.
  - apply Hauth. reflexivity.
Defined.

(** ** Failures of the platform *)







(** What each operation does with a response of success status. *)
Lemma fetchDashboard_ok (net : Network) (r : Response) :
  answered_by dashboardTimeout net dashboardRequest r -> ok r = true ->
  outcome (fetchDashboard net) = bind (json r) unwrapDashboard.
Proof.
  intros Hans Hok. unfold fetchDashboard.
  rewrite (fetch_with_abort_answered _ _ _ _ Hans). simpl. rewrite Hok. reflexivity.
Qed.

Lemma fetchExpenses_ok (net : Network) (params : option ExpenseParams) (r : Response) :
  answered net (GET (expensesUrl params)) r -> ok r = true ->
  outcome (fetchExpenses net params) = bind (json r) unwrapExpenses.
Proof.
  intros Hans Hok. unfold fetchExpenses. simpl. rewrite (fetch_answered _ _ _ Hans).
  simpl. rewrite Hok. reflexivity.
Qed.

Lemma syncExpenses_ok (net : Network) (daysBack : option number) (r : Response) :
  answered net (syncRequestOf daysBack) r -> ok r = true ->
  outcome (syncExpenses net daysBack) = json r.
Proof.
  intros Hans Hok. unfold syncRequestOf in Hans. unfold syncExpenses.
  cbv beta iota zeta. unfold outcome. rewrite (fetch_answered _ _ _ Hans). simpl.
  rewrite Hok. reflexivity.
Qed.

Lemma fetchAuthStatus_ok (net : Network) (r : Response) :
  answered net authRequest r -> ok r = true ->
  outcome (fetchAuthStatus net) =
  bind (json r) (fun json =>
  bind (member json "authenticated") (fun a =>
  bind (member json "user") (fun u =>
  Fulfilled {| authenticated := a; user := or_else u JNull |}))).
Proof.
  intros Hans Hok. unfold fetchAuthStatus. simpl. rewrite (fetch_answered _ _ _ Hans).
  simpl. rewrite Hok. reflexivity.
Qed.

(** X3. A success response whose text is not JSON makes every operation
    reject with the syntax error of the parser; the empty-list leniency of
    [fetchExpenses] does not cover it. *)
Theorem malformed_body_is_syntax_error (net : Network) (params : option ExpenseParams)
    (daysBack : option number) (r : Response) :
  ok r = true -> payload r = None ->
  (answered_by dashboardTimeout net dashboardRequest r ->
     outcome (fetchDashboard net) = Rejected SyntaxError) /\
  (answered net (GET (expensesUrl params)) r ->
     outcome (fetchExpenses net params) = Rejected SyntaxError) /\
  (answered net (syncRequestOf daysBack) r ->
     outcome (syncExpenses net daysBack) = Rejected SyntaxError) /\
  (answered net authRequest r ->
     outcome (fetchAuthStatus net) = Rejected SyntaxError).
Proof.
  intros Hok Hnone.
  assert (Hjson : json r = Rejected SyntaxError) by (unfold json; rewrite Hnone; reflexivity).
  split; [| split; [| split]]; intros Hans.
  - rewrite (fetchDashboard_ok _ _ Hans Hok), Hjson. reflexivity.
  - rewrite (fetchExpenses_ok _ _ _ Hans Hok), Hjson. reflexivity.
  - rewrite (syncExpenses_ok _ _ _ Hans Hok). exact Hjson.
  - rewrite (fetchAuthStatus_ok _ _ Hans Hok), Hjson. reflexivity.
Qed.

Lemma malformed_body_is_syntax_error_witness :
  outcome (fetchDashboard (always garbled)) = Rejected SyntaxError /\
  outcome (fetchExpenses (always garbled) None) = Rejected SyntaxError /\
  outcome (syncExpenses (always garbled) None) = Rejected SyntaxError /\
  outcome (fetchAuthStatus (always garbled)) = Rejected SyntaxError.
Proof.
  destruct (malformed_body_is_syntax_error (always garbled) None None garbled
              eq_refl eq_refl) as [Hdash [Hexp [Hsync Hauth]]].
  split; [| split; [| split]].
  - apply Hdash. apply always_answered_by.
  - apply Hexp. apply always_answered.
  - apply Hsync. apply always_answered.
  - apply Hauth. apply always_answered.
Defined.

(** X4. A success response whose body is the JSON value [null] makes
    [fetchDashboard], [fetchExpenses] and [fetchAuthStatus] reject with a
    type error, since each reads a property of the body; [syncExpenses]
    reads none and resolves to [null]. *)
Theorem null_body_is_type_error (net : Network) (params : option ExpenseParams)
    (daysBack : option number) (r : Response) :
  ok r = true -> payload r = Some JNull ->
  (answered_by dashboardTimeout net dashboardRequest r ->
     outcome (fetchDashboard net) = Rejected TypeError) /\
  (answered net (GET (expensesUrl params)) r ->
     outcome (fetchExpenses net params) = Rejected TypeError) /\
  (answered net authRequest r ->
     outcome (fetchAuthStatus net) = Rejected TypeError) /\
  (answered net (syncRequestOf daysBack) r ->
     outcome (syncExpenses net daysBack) = Fulfilled JNull).
Proof.
  intros Hok Hnull.
  assert (Hjson : json r = Fulfilled JNull) by (unfold json; rewrite Hnull; reflexivity).
  split; [| split; [| split]]; intros Hans.
  - rewrite (fetchDashboard_ok _ _ Hans Hok), Hjson. reflexivity.
  - rewrite (fetchExpenses_ok _ _ _ Hans Hok), Hjson. reflexivity.
  - rewrite (fetchAuthStatus_ok _ _ Hans Hok), Hjson. reflexivity.
  - rewrite (syncExpenses_ok _ _ _ Hans Hok). exact Hjson.
Qed.

Lemma null_body_is_type_error_witness :
  outcome (fetchDashboard (always (success JNull))) = Rejected TypeError /\
  outcome (fetchExpenses (always (success JNull)) None) = Rejected TypeError /\
  outcome (fetchAuthStatus (always (success JNull))) = Rejected TypeError /\
  outcome (syncExpenses (always (success JNull)) None) = Fulfilled JNull.
Proof.
  destruct (null_body_is_type_error (always (success JNull)) None None (success JNull)
              eq_refl eq_refl) as [Hdash [Hexp [Hauth Hsync]]].
  split; [| split; [| split]].
  - apply Hdash. apply always_answered_by.
  - apply Hexp. apply always_answered.
  - apply Hauth. apply always_answered.
  - apply Hsync. apply always_answered.
Defined.



(** ** The expenses URL *)

(** X6. The parameters [fetchExpenses] sets are the given non-empty
    filters in the fixed order year, month, category; no [set] replaces an
    earlier pair. *)
Theorem expensesSearchParams_in_order (params : option ExpenseParams) :
  expensesSearchParams params =
  (keep "year" (field year params) ++ keep "month" (field month params)
     ++ keep "category" (field category params))%list.
Proof.
  destruct params as [[[[| y0 y] |] [[| m0 m] |] [[| c0 c] |]] |]; reflexivity.
Qed.

(** X7. The URL is exactly [/api/expenses], without a question mark, when
    and only when no filter is set; otherwise a non-empty query follows the
    question mark. *)
Theorem expensesUrl_query_iff_filter (params : option ExpenseParams) :
  (expensesSearchParams params = [] <-> expensesUrl params = "/api/expenses") /\
  (expensesSearchParams params <> [] ->
   exists c query, expensesUrl params = "/api/expenses?" ++ String c query).
Proof.
  unfold expensesUrl. rewrite serialize_truthy.
  destruct (expensesSearchParams params) as [| kv l] eqn:Hq.
  - split; [split; reflexivity | intros H; contradiction H; reflexivity].
  - split.
    + split; [discriminate |]. intros H. discriminate H.
    + intros _. pose proof (serialize_truthy (kv :: l)) as Ht. simpl in Ht.
      destruct (serialize (kv :: l)) as [| c query]; [discriminate Ht |].
      exists c, query. reflexivity.
Qed.

Lemma expensesUrl_query_iff_filter_witness :
  expensesUrl (Some {| year := Some EmptyString; month := None; category := None |})
    = "/api/expenses" /\
  exists c query, expensesUrl sampleParams = "/api/expenses?" ++ String c query.
Proof.
  split.
  - apply (proj1 (expensesUrl_query_iff_filter _)). reflexivity.
  - apply (proj2 (expensesUrl_query_iff_filter sampleParams)). discriminate.
Defined.

(** X8. Two parameter objects give the same URL exactly when they set the
    same parameters: the URL tells the effective filters apart. *)
Theorem expensesUrl_injective (p q : option ExpenseParams) :
  expensesUrl p = expensesUrl q <-> expensesSearchParams p = expensesSearchParams q.
Proof.
  split; intros H.
  - rewrite <- (parse_serialize (expensesSearchParams p)).
    rewrite <- (parse_serialize (expensesSearchParams q)).
    rewrite <- !expensesUrl_query, H. reflexivity.
  - unfold expensesUrl. rewrite H. reflexivity.
Qed.

Lemma expensesUrl_injective_witness :
  expensesUrl (Some {| year := Some EmptyString; month := None; category := None |})
    = expensesUrl None /\
  expensesUrl sampleParams <> expensesUrl None.
Proof.
  split.
  - apply (proj2 (expensesUrl_injective _ None)). reflexivity.
  - intros H. apply (proj1 (expensesUrl_injective sampleParams None)) in H. discriminate H.
Defined.

(** ** The sync body *)

(** X9. [syncExpenses] does not validate its argument: for a number that
    is not finite (NaN or an infinity) the body sent is
    [{"days_back":null}]. *)
Theorem syncExpenses_not_finite_sends_null (net : Network) (daysBack : number) :
  finite daysBack = false ->
  map body (sent (syncExpenses net (Some daysBack))) = [Some nullDaysBack].
Proof.
  intros Hnot. unfold syncExpenses, syncRequest. simpl. rewrite Hnot. reflexivity.
Qed.

Lemma syncExpenses_not_finite_sends_null_witness :
  map body (sent (syncExpenses never (Some S754_nan))) = [Some nullDaysBack].
Proof.
  apply (syncExpenses_not_finite_sends_null never S754_nan). reflexivity.
Defined.

(** ** Bodies of other shapes *)

(** X10. The envelope steps do not check the shape of what they return.
    For a body that is an array, a string, a number or a boolean,
    [fetchExpenses] resolves to the empty list and [fetchDashboard] to the
    body; and any truthy value under the wrapper property is returned as it
    is, whatever its type. *)
Theorem envelopes_of_other_bodies (net : Network) (params : option ExpenseParams)
    (r : Response) (content : JSValue) :
  ok r = true -> payload r = Some content ->
  (primitive content ->
     (answered net (GET (expensesUrl params)) r ->
        outcome (fetchExpenses net params) = Fulfilled (JArr [])) /\
     (answered_by dashboardTimeout net dashboardRequest r ->
        outcome (fetchDashboard net) = Fulfilled content)) /\
  (forall props v, content = JObj props -> truthy v = true ->
     (answered net (GET (expensesUrl params)) r -> own "expenses" props = Some v ->
        outcome (fetchExpenses net params) = Fulfilled v) /\
     (answered_by dashboardTimeout net dashboardRequest r -> own "dashboard" props = Some v ->
        outcome (fetchDashboard net) = Fulfilled v)).
Proof.
  intros Hok Hbody. split.
  - intros Hprim. split; intros Hans.
    + rewrite (fetchExpenses_success _ _ _ _ Hans Hok Hbody).
      destruct content; try contradiction; reflexivity.
    + rewrite (fetchDashboard_success _ _ _ Hans Hok Hbody).
      destruct content; try contradiction; reflexivity.
  - intros props v -> Hv. split; intros Hans Hown.
    + rewrite (fetchExpenses_success _ _ _ _ Hans Hok Hbody).
      unfold unwrapExpenses, or_else. simpl. rewrite Hown. simpl. rewrite Hv. reflexivity.
    + rewrite (fetchDashboard_success _ _ _ Hans Hok Hbody).
      unfold unwrapDashboard, or_else. simpl. rewrite Hown. simpl. rewrite Hv. reflexivity.
Qed.

Lemma envelopes_of_other_bodies_witness :
  outcome (fetchExpenses (always (success (JStr "down for maintenance"))) None)
    = Fulfilled (JArr []) /\
  outcome (fetchDashboard (always (success (JStr "down for maintenance"))))
    = Fulfilled (JStr "down for maintenance") /\
  outcome (fetchExpenses (always (success (JObj [("expenses", JNum (of_Z 7))]))) None)
    = Fulfilled (JNum (of_Z 7)).
Proof.
  destruct (envelopes_of_other_bodies (always (success (JStr "down for maintenance"))) None
              (success (JStr "down for maintenance")) (JStr "down for maintenance")
              eq_refl eq_refl) as [Hprim _].
  destruct (Hprim I) as [Hexp Hdash].
  destruct (envelopes_of_other_bodies (always (success (JObj [("expenses", JNum (of_Z 7))])))
              None (success (JObj [("expenses", JNum (of_Z 7))]))
              (JObj [("expenses", JNum (of_Z 7))]) eq_refl eq_refl) as [_ Hobj].
  destruct (Hobj [("expenses", JNum (of_Z 7))] (JNum (of_Z 7)) eq_refl eq_refl) as [Hval _].
  split; [| split].
  - apply Hexp. apply always_answered.
  - apply Hdash. apply always_answered_by.
  - apply Hval; [apply always_answered | reflexivity].
Defined.

(** * Further properties of the category chart *)

Lemma segmentsFrom_fields (sum : number) (l : list Chart.CategoryData) :
  forall i cumulative,
    map Chart.seg_category (Chart.segmentsFrom sum i cumulative l) = map Chart.category l /\
    map Chart.seg_amount (Chart.segmentsFrom sum i cumulative l) = map Chart.total l /\
    map Chart.seg_color (Chart.segmentsFrom sum i cumulative l)
      = map Chart.colorAt (seq i (List.length l)) /\
    map Chart.pct (Chart.segmentsFrom sum i cumulative l) = map (Chart.share sum) l.
Proof.
  induction l as [| c l IH]; intros i cumulative; simpl.
  - repeat split.
  - destruct (IH (S i) (add cumulative (Chart.share sum c))) as [H1 [H2 [H3 H4]]].
    rewrite H1, H2, H3, H4. repeat split.
Qed.

Lemma categoriesFrom_fields (formatCurrency : number -> string) (sum : number)
    (l : list Chart.CategoryData) :
  forall i,
    map Chart.name (Chart.categoriesFrom formatCurrency sum i l) = map Chart.category l /\
    map Chart.rawAmount (Chart.categoriesFrom formatCurrency sum i l) = map Chart.total l /\
    map Chart.color (Chart.categoriesFrom formatCurrency sum i l)
      = map Chart.colorAt (seq i (List.length l)) /\
    map Chart.percentage (Chart.categoriesFrom formatCurrency sum i l)
      = map (Chart.percentageOf sum) l.
Proof.
  induction l as [| c l IH]; intros i; simpl.
  - repeat split.
  - destruct (IH (S i)) as [H1 [H2 [H3 H4]]].
    rewrite H1, H2, H3, H4. repeat split.
Qed.

(** X11. The donut and its legend agree: both show the first eight
    categories at most, and entry by entry they carry the same category, the
    same colour and the same amount; when the grand total is positive, the
    legend percentage is the segment percentage printed with one digit. *)
Theorem legend_matches_segments (formatCurrency : number -> string)
    (data : list Chart.CategoryData) :
  let segs := Chart.segments data in
  let legs := Chart.categories formatCurrency data in
  List.length segs = Nat.min 8 (List.length data) /\
  List.length legs = List.length segs /\
  map Chart.name legs = map Chart.seg_category segs /\
  map Chart.color legs = map Chart.seg_color segs /\
  map Chart.rawAmount legs = map Chart.seg_amount segs /\
  (gt (Chart.grandTotal data) zero = true ->
   map Chart.percentage legs = map (fun s => toFixed (Chart.pct s) 1) segs).
Proof.
  intros segs legs. subst segs legs. unfold Chart.segments, Chart.categories.
  set (sum := Chart.grandTotal data). set (l := Chart.shown data).
  destruct (segmentsFrom_fields sum l 0 zero) as [S1 [S2 [S3 S4]]].
  destruct (categoriesFrom_fields formatCurrency sum l 0) as [L1 [L2 [L3 L4]]].
  assert (Hlen : List.length (Chart.segmentsFrom sum 0 zero l) = List.length l).
  { rewrite <- (length_map Chart.seg_category), S1. apply length_map. }
  split; [| split; [| split; [| split; [| split]]]].
  - rewrite Hlen. unfold l, Chart.shown. apply length_firstn.
  - rewrite Hlen. rewrite <- (length_map Chart.name), L1. apply length_map.
  - rewrite L1, S1. reflexivity.
  - rewrite L3, S3. reflexivity.
  - rewrite L2, S2. reflexivity.
  - intros Hpos. rewrite L4. rewrite <- (map_map Chart.pct (fun x => toFixed x 1)), S4.
    rewrite map_map. apply map_ext. intros c.
    unfold Chart.percentageOf, Chart.share. rewrite Hpos. reflexivity.
Qed.

Lemma legend_matches_segments_witness :
  map Chart.percentage (Chart.categories plainAmount sampleCategories)
    = map (fun s => toFixed (Chart.pct s) 1) (Chart.segments sampleCategories).
Proof.
  pose proof (legend_matches_segments plainAmount sampleCategories) as H. cbv zeta in H.
  destruct H as [_ [_ [_ [_ [_ Hpct]]]]]. apply Hpct. reflexivity.
Defined.

Lemma segmentsFrom_offsets (sum : number) (l : list Chart.CategoryData) :
  forall i cumulative,
    (forall s, nth_error (Chart.segmentsFrom sum i cumulative l) 0 = Some s ->
       Chart.offset s = cumulative) /\
    (forall k a b,
       nth_error (Chart.segmentsFrom sum i cumulative l) k = Some a ->
       nth_error (Chart.segmentsFrom sum i cumulative l) (S k) = Some b ->
       Chart.offset b = add (Chart.offset a) (Chart.pct a)).
Proof.
  induction l as [| c l IH]; intros i cumulative; simpl.
  - split; [intros s H; discriminate H | intros k a b H; destruct k; discriminate H].
  - destruct (IH (S i) (add cumulative (Chart.share sum c))) as [Hhead Hnext].
    split.
    + intros s H. injection H as <-. reflexivity.
    + intros k a b Ha Hb. destruct k as [| k].
      * simpl in Ha, Hb. injection Ha as <-. simpl. apply Hhead. exact Hb.
      * simpl in Ha, Hb. apply (Hnext k); assumption.
Qed.

(** X12. The segments are laid end to end: the first starts at 0 and each
    next one starts where the previous one ends, at its offset plus its
    percentage. *)
Theorem segment_offsets_accumulate (data : list Chart.CategoryData) :
  (forall s, nth_error (Chart.segments data) 0 = Some s -> Chart.offset s = zero) /\
  (forall k a b,
     nth_error (Chart.segments data) k = Some a ->
     nth_error (Chart.segments data) (S k) = Some b ->
     Chart.offset b = add (Chart.offset a) (Chart.pct a)).
Proof. apply segmentsFrom_offsets. Qed.

Lemma segment_offsets_accumulate_witness :
  map Chart.offset (Chart.segments sampleCategories) = [zero; of_Z 50; of_Z 80].
Proof.
  destruct (segment_offsets_accumulate sampleCategories) as [Hfirst Hnext].
  destruct (Chart.segments sampleCategories) as [| a [| b [| c rest]]] eqn:Hsegs;
    try discriminate Hsegs.
  assert (Hpct : map Chart.pct (a :: b :: c :: rest) = [of_Z 50; of_Z 30; of_Z 20]).
  { rewrite <- Hsegs. vm_compute. reflexivity. }
  destruct rest; [| discriminate Hpct]. injection Hpct as Ha Hb Hc.
  simpl. rewrite (Hnext 1%nat b c eq_refl eq_refl), (Hnext 0%nat a b eq_refl eq_refl).
  rewrite (Hfirst a eq_refl), Ha, Hb. vm_compute. reflexivity.
Defined.

Lemma palette_prefix (n : nat) :
  (n <= 8)%nat -> map Chart.colorAt (seq 0 n) = firstn n Chart.COLORS.
Proof.
  intros Hn.
  do 9 (destruct n as [| n]; [reflexivity |]). exfalso. lia.
Qed.

Lemma In_firstn {A : Type} (n : nat) (l : list A) (x : A) : In x (firstn n l) -> In x l.
Proof.
  revert n. induction l as [| y l IH]; intros n Hin.
  - rewrite firstn_nil in Hin. contradiction.
  - destruct n; [contradiction |]. simpl in Hin. destruct Hin as [-> | Hin].
    + left; reflexivity.
    + right. apply (IH n). exact Hin.
Qed.

Lemma NoDup_firstn {A : Type} (n : nat) (l : list A) : NoDup l -> NoDup (firstn n l).
Proof.
  revert n. induction l as [| x l IH]; intros n Hnd.
  - rewrite firstn_nil. constructor.
  - destruct n as [| n]; [constructor |]. simpl.
    inversion Hnd as [| ? ? Hnotin Hrest]; subst. constructor.
    + intros Hin. apply Hnotin. apply (In_firstn n). exact Hin.
    + apply IH. exact Hrest.
Qed.

Lemma palette_distinct : NoDup Chart.COLORS.
Proof. unfold Chart.COLORS. repeat constructor; simpl; intuition discriminate. Qed.

(** X13. Every segment takes its colour from the palette, and no two
    segments of a chart share a colour. *)
Theorem segment_colours_distinct (data : list Chart.CategoryData) :
  NoDup (map Chart.seg_color (Chart.segments data)) /\
  (forall s, In s (Chart.segments data) -> In (Chart.seg_color s) Chart.COLORS).
Proof.
  assert (Hcolors : map Chart.seg_color (Chart.segments data)
                    = firstn (List.length (Chart.shown data)) Chart.COLORS).
  { unfold Chart.segments.
    destruct (segmentsFrom_fields (Chart.grandTotal data) (Chart.shown data) 0 zero)
      as [_ [_ [H _]]].
    rewrite H. apply palette_prefix. unfold Chart.shown. rewrite length_firstn. lia. }
  split.
  - rewrite Hcolors. apply NoDup_firstn. apply palette_distinct.
  - intros s Hin. apply (in_map Chart.seg_color) in Hin. rewrite Hcolors in Hin.
    apply (In_firstn _ _ _ Hin).
Qed.

Lemma segment_colours_distinct_witness :
  NoDup (map Chart.seg_color (Chart.segments sampleCategories)).
Proof. apply (proj1 (segment_colours_distinct sampleCategories)). Defined.

Lemma segmentsFrom_nothing (sum : number) (l : list Chart.CategoryData) :
  gt sum zero = false ->
  forall i s, In s (Chart.segmentsFrom sum i zero l) ->
    Chart.pct s = zero /\ Chart.offset s = zero.
Proof.
  intros Hsum. induction l as [| c l IH]; intros i s Hin; simpl in Hin.
  - contradiction.
  - assert (Hshare : Chart.share sum c = zero) by (unfold Chart.share; rewrite Hsum; reflexivity).
    destruct Hin as [<- | Hin].
    + simpl. split; [exact Hshare | reflexivity].
    + rewrite Hshare in Hin. apply (IH (S i)). exact Hin.
Qed.

(** X14. A grand total that is not strictly positive, be it zero,
    negative or NaN, draws nothing: every segment has percentage 0 and
    offset 0, and every legend percentage reads 0. *)
Theorem percentages_need_positive_total (formatCurrency : number -> string)
    (data : list Chart.CategoryData) :
  gt (Chart.grandTotal data) zero = false ->
  (forall s, In s (Chart.segments data) -> Chart.pct s = zero /\ Chart.offset s = zero) /\
  (forall c, In c (Chart.categories formatCurrency data) -> Chart.percentage c = "0").
Proof.
  intros Hsum. split.
  - intros s. apply segmentsFrom_nothing. exact Hsum.
  - intros c. apply categoriesFrom_zero. exact Hsum.
Qed.

Lemma percentages_need_positive_total_witness :
  map Chart.pct (Chart.segments refundCategories) = [zero] /\
  map Chart.percentage (Chart.categories plainAmount refundCategories) = ["0"].
Proof.
  destruct (percentages_need_positive_total plainAmount refundCategories eq_refl)
    as [Hseg Hleg].
  split.
  - rewrite (map_ext_in _ (fun _ => zero) _ (fun s Hin => proj1 (Hseg s Hin))). reflexivity.
  - rewrite (map_ext_in _ (fun _ => "0") _ Hleg). reflexivity.
Defined.

(** * Further properties of the pages *)

(** ** Sorting and removing repetitions *)

Lemma insert_perm (x : string) (l : list string) : Permutation (Arr.insert x l) (x :: l).
Proof.
  induction l as [| y l IH]; simpl; [apply Permutation_refl |].
  destruct (String.leb x y); [apply Permutation_refl |].
  apply perm_trans with (y :: x :: l); [apply perm_skip; exact IH | apply perm_swap].
Qed.

Lemma sort_perm (l : list string) : Permutation (Arr.sort l) l.
Proof.
  induction l as [| x l IH]; simpl; [apply perm_nil |].
  apply perm_trans with (x :: Arr.sort l); [apply insert_perm | apply perm_skip; exact IH].
Qed.

Lemma leb_false_flip (x y : string) : String.leb x y = false -> String.leb y x = true.
Proof.
  intros H. destruct (String.leb_total x y) as [Hxy | Hyx]; [congruence | exact Hyx].
Qed.

Lemma insert_sorted (x : string) (l : list string) :
  Sorted ascending l -> Sorted ascending (Arr.insert x l).
Proof.
  induction l as [| y l IH]; intros Hs; simpl.
  - constructor; constructor.
  - destruct (String.leb x y) eqn:Hxy.
    + constructor; [exact Hs | constructor; exact Hxy].
    + apply Sorted_inv in Hs. destruct Hs as [Hs Hhd].
      constructor; [apply IH; exact Hs |].
      destruct l as [| z l]; simpl.
      * constructor. apply leb_false_flip. exact Hxy.
      * destruct (String.leb x z); constructor.
        -- apply leb_false_flip. exact Hxy.
        -- apply HdRel_inv in Hhd. exact Hhd.
Qed.

Lemma sort_sorted (l : list string) : Sorted ascending (Arr.sort l).
Proof.
  induction l as [| x l IH]; simpl; [constructor | apply insert_sorted; exact IH].
Qed.

(** Appending an element the last one is related to keeps a list sorted. *)
Lemma Sorted_snoc {A : Type} (R : A -> A -> Prop) (l : list A) (a : A) :
  Sorted R l -> HdRel (fun x y => R y x) a (rev l) -> Sorted R (l ++ [a]).
Proof.
  induction l as [| y l IH]; intros Hs Hlast; simpl.
  - constructor; constructor.
  - apply Sorted_inv in Hs. destruct Hs as [Hs Hhd].
    destruct l as [| z l].
    + simpl in *. constructor; [constructor; constructor |].
      constructor. apply HdRel_inv in Hlast. exact Hlast.
    + constructor.
      * apply IH; [exact Hs |].
        simpl in Hlast |- *.
        destruct (rev l ++ [z])%list as [| w m] eqn:Hrev.
        -- destruct (rev l); discriminate Hrev.
        -- simpl in Hlast. apply HdRel_inv in Hlast. constructor. exact Hlast.
      * simpl. constructor. apply HdRel_inv in Hhd. exact Hhd.
Qed.

Lemma Sorted_rev {A : Type} (R : A -> A -> Prop) (l : list A) :
  Sorted R l -> Sorted (fun x y => R y x) (rev l).
Proof.
  induction l as [| a l IH]; intros Hs; simpl; [constructor |].
  apply Sorted_inv in Hs. destruct Hs as [Hs Hhd].
  apply Sorted_snoc; [apply IH; exact Hs |].
  rewrite rev_involutive. destruct Hhd; constructor; assumption.
Qed.

Lemma Sorted_NoDup_strict {A : Type} (R : A -> A -> Prop) (l : list A) :
  Sorted R l -> NoDup l -> Sorted (fun x y => R x y /\ x <> y) l.
Proof.
  induction l as [| a l IH]; intros Hs Hnd; [constructor |].
  apply Sorted_inv in Hs. destruct Hs as [Hs Hhd].
  inversion Hnd as [| ? ? Hnotin Hrest]; subst.
  constructor; [apply IH; assumption |].
  destruct Hhd as [| b l Hab]; constructor.
  split; [exact Hab |]. intros ->. apply Hnotin. left; reflexivity.
Qed.

Lemma Sorted_weaken {A : Type} (R S : A -> A -> Prop) (l : list A) :
  (forall x y, R x y -> S x y) -> Sorted R l -> Sorted S l.
Proof.
  intros Himp. induction 1 as [| a l Hs IH Hhd]; constructor; [exact IH |].
  destruct Hhd; constructor. apply Himp. assumption.
Qed.

Lemma leb_neq_ltb (a b : string) : String.leb a b = true -> a <> b -> String.ltb a b = true.
Proof.
  unfold String.leb, String.ltb. intros Hle Hne.
  destruct (String.compare a b) eqn:Hc; [| reflexivity | discriminate Hle].
  exfalso. apply Hne. apply String.compare_eq_iff. exact Hc.
Qed.

Lemma mem_In (x : string) (l : list string) : Arr.mem x l = true <-> In x l.
Proof.
  unfold Arr.mem. rewrite existsb_exists. split.
  - intros [y [Hin Heq]]. apply String.eqb_eq in Heq. subst. exact Hin.
  - intros Hin. exists x. split; [exact Hin | apply String.eqb_refl].
Qed.

Lemma uniqueFrom_In (l : list string) :
  forall seen x, In x (Arr.uniqueFrom seen l) <-> In x l /\ ~ In x seen.
Proof.
  induction l as [| y l IH]; intros seen x; simpl.
  - tauto.
  - destruct (Arr.mem y seen) eqn:Hmem.
    + apply mem_In in Hmem. rewrite IH. split.
      * intros [Hin Hnot]. tauto.
      * intros [[-> | Hin] Hnot]; [contradiction | tauto].
    + assert (Hy : ~ In y seen). { intros H. apply mem_In in H. congruence. }
      simpl. rewrite IH. simpl. split.
      * intros [-> | [Hin Hnot]]; [tauto |]. tauto.
      * intros [[-> | Hin] Hnot]; [left; reflexivity |].
        destruct (string_dec y x) as [-> | Hne]; [left; reflexivity |].
        right. split; [exact Hin |]. intros [H | H]; [contradiction | contradiction].
Qed.

Lemma uniqueFrom_NoDup (l : list string) : forall seen, NoDup (Arr.uniqueFrom seen l).
Proof.
  induction l as [| y l IH]; intros seen; simpl; [constructor |].
  destruct (Arr.mem y seen); [apply IH |].
  constructor; [| apply IH].
  rewrite uniqueFrom_In. intros [_ Hnot]. apply Hnot. left; reflexivity.
Qed.

Lemma unique_In (l : list string) (x : string) : In x (Arr.unique l) <-> In x l.
Proof. unfold Arr.unique. rewrite uniqueFrom_In. simpl. tauto. Qed.

Lemma unique_NoDup (l : list string) : NoDup (Arr.unique l).
Proof. apply uniqueFrom_NoDup. Qed.

Lemma sort_unique_In (l : list string) (x : string) :
  In x (Arr.sort (Arr.unique l)) <-> In x l.
Proof.
  split; intros H.
  - apply unique_In. apply (Permutation_in x (sort_perm _)). exact H.
  - apply (Permutation_in x (Permutation_sym (sort_perm _))). apply unique_In. exact H.
Qed.

(** What sorting and reversing a list without repetition gives. *)
Lemma rev_sort_unique (l : list string) :
  Sorted strictlyDescending (rev (Arr.sort (Arr.unique l))) /\
  NoDup (rev (Arr.sort (Arr.unique l))) /\
  (forall x, In x (rev (Arr.sort (Arr.unique l))) <-> In x l).
Proof.
  assert (Hnd : NoDup (Arr.sort (Arr.unique l))).
  { apply (Permutation_NoDup (l := Arr.unique l));
      [apply Permutation_sym, sort_perm | apply unique_NoDup]. }
  split; [| split].
  - apply (Sorted_weaken (fun x y => String.leb y x = true /\ y <> x)).
    + intros x y [Hle Hne]. apply leb_neq_ltb; assumption.
    + apply (Sorted_rev (fun x y => ascending x y /\ x <> y)).
      apply Sorted_NoDup_strict; [apply sort_sorted | exact Hnd].
  - apply NoDup_rev. exact Hnd.
  - intros x. rewrite <- in_rev. apply sort_unique_In.
Qed.

(** ** The dashboard page *)

Lemma orZero_not_NaN (x : number) : ~ isNaN (Dashboard.orZero x).
Proof. unfold isNaN, Dashboard.orZero. destruct x; simpl; discriminate. Qed.

(** X15. The totals, the transaction count and the amount of this month
    that the dashboard shows are never NaN, whatever the snapshot holds and
    whichever year is selected. *)
Theorem dashboard_cards_never_NaN (data : option Dashboard.DashboardData)
    (selectedYear currentMonth : string) :
  ~ isNaN (Dashboard.totalExpenses (Dashboard.totals data selectedYear)) /\
  ~ isNaN (Dashboard.expenseCount (Dashboard.totals data selectedYear)) /\
  ~ isNaN (Dashboard.thisMonthExpenses data currentMonth).
Proof.
  assert (Hzero : ~ isNaN zero) by discriminate.
  split; [| split].
  - unfold Dashboard.totals. destruct data as [d |]; [| exact Hzero].
    destruct (String.eqb selectedYear EmptyString); [apply orZero_not_NaN |].
    destruct (find _ _); [apply orZero_not_NaN | exact Hzero].
  - unfold Dashboard.totals. destruct data as [d |]; [| exact Hzero].
    destruct (String.eqb selectedYear EmptyString); [apply orZero_not_NaN |].
    destruct (find _ _); [apply orZero_not_NaN | exact Hzero].
  - unfold Dashboard.thisMonthExpenses.
    assert (Hfrom : ~ isNaN match Dashboard.thisMonthData data currentMonth with
                            | Some m => Dashboard.orZero (Dashboard.total m)
                            | None => zero
                            end).
    { destruct (Dashboard.thisMonthData data currentMonth);
        [apply orZero_not_NaN | exact Hzero]. }
    destruct data as [d |]; [| exact Hfrom].
    destruct (Dashboard.this_month_expenses d) as [x |]; [| exact Hfrom].
    destruct (Num.truthy x) eqn:Hx; [| exact Hfrom].
    unfold isNaN. intros ->. discriminate Hx.
Qed.





(** X18. The amount of this month falls back on falsiness: a precomputed
    amount that is missing, 0 or NaN is replaced by the total of the first
    monthly aggregate of the current month. *)
Theorem thisMonth_falls_back_on_falsy (d : Dashboard.DashboardData) (currentMonth : string)
    (m : Dashboard.MonthlyData) :
  Dashboard.thisMonthData (Some d) currentMonth = Some m ->
  (forall x, Dashboard.this_month_expenses d = Some x -> Num.truthy x = false) ->
  Dashboard.thisMonthExpenses (Some d) currentMonth = Dashboard.orZero (Dashboard.total m).
Proof.
  intros Hm Hfalsy. unfold Dashboard.thisMonthExpenses. rewrite Hm.
  destruct (Dashboard.this_month_expenses d) as [x |]; [| reflexivity].
  rewrite (Hfalsy x eq_refl). reflexivity.
Qed.

Lemma thisMonth_falls_back_on_falsy_witness :
  Dashboard.thisMonthExpenses (Some sampleDashboard) "2024-02" = of_Z 500.
Proof.
  rewrite (thisMonth_falls_back_on_falsy sampleDashboard "2024-02"
             {| Dashboard.month := "2024-02"; Dashboard.total := of_Z 500;
                Dashboard.count := of_Z 4 |}).
  - reflexivity.
  - reflexivity.
  - intros x Hx. injection Hx as <-. reflexivity.
Defined.

Lemma dashboard_cards_never_NaN_witness :
  ~ isNaN (Dashboard.thisMonthExpenses (Some sampleDashboard) "2024-02").
Proof.
  apply (proj2 (proj2 (dashboard_cards_never_NaN (Some sampleDashboard) "2024" "2024-02"))).
Defined.

(** ** The menus of the expenses pages and of the monthly chart *)

Lemma firstPart_prefix (sep : ascii) (s : string) :
  String.prefix (Arr.firstPart sep s) s = true.
Proof.
  unfold Arr.firstPart. induction s as [| c s IH]; simpl; [reflexivity |].
  destruct (Ascii.eqb c sep); simpl; [reflexivity |].
  destruct (cut sep s) as [before after]. simpl in *.
  destruct (ascii_dec c c) as [_ | Hne]; [exact IH | contradiction Hne; reflexivity].
Qed.





Lemma includes_empty (hay : string) : Arr.includes hay EmptyString = true.
Proof. destruct hay; reflexivity. Qed.

(** X21. With an empty search term the page shows every expense, in the
    order received, as long as the lower case of the empty string is the
    empty string. *)
Theorem empty_search_shows_all (toLowerCase : string -> string)
    (expenses : list Dashboard.Expense) :
  toLowerCase EmptyString = EmptyString ->
  ExpensesPage.filteredExpenses toLowerCase expenses EmptyString = expenses.
Proof.
  intros Hlower. unfold ExpensesPage.filteredExpenses.
  induction expenses as [| e expenses IH]; [reflexivity |].
  simpl. unfold ExpensesPage.matches at 1. rewrite Hlower, includes_empty. simpl.
  rewrite IH. reflexivity.
Qed.

Lemma empty_search_shows_all_witness :
  ExpensesPage.filteredExpenses lowerCase sampleExpenses EmptyString = sampleExpenses.
Proof. apply (empty_search_shows_all lowerCase sampleExpenses). reflexivity. Defined.

(** X22. The request of the expenses pages carries exactly the non-empty
    selections, in the order year, month, category; with nothing selected it
    goes to [/api/expenses]. *)
Theorem page_request_sends_selections (selectedYear selectedMonth selectedCategory : string) :
  let params := ExpensesPage.requestParams selectedYear selectedMonth selectedCategory in
  parse (queryOf (expensesUrl params))
    = filter (fun kv => str_truthy (snd kv))
        [("year", selectedYear); ("month", selectedMonth); ("category", selectedCategory)] /\
  (selectedYear = EmptyString -> selectedMonth = EmptyString ->
   selectedCategory = EmptyString -> expensesUrl params = "/api/expenses").
Proof.
  intros params. subst params. split.
  - rewrite expensesUrl_query, parse_serialize.
    destruct selectedYear, selectedMonth, selectedCategory; reflexivity.
  - intros -> -> ->. reflexivity.
Qed.

Lemma page_request_sends_selections_witness :
  expensesUrl (ExpensesPage.requestParams EmptyString EmptyString EmptyString)
    = "/api/expenses".
Proof.
  pose proof (page_request_sends_selections EmptyString EmptyString EmptyString) as H.
  cbv zeta in H. destruct H as [_ Hnone]. apply Hnone; reflexivity.
Defined.

(** ** The page of the expenses the user paid *)

Lemma anonymous_userName (p : Promise Header.AuthStatus) :
  anonymousOutcome p -> PaidByMePage.onAuthStatus p EmptyString = EmptyString.
Proof.
  intros Hanon. unfold PaidByMePage.onAuthStatus.
  destruct p as [data | e |]; try reflexivity.
  destruct (Header.user data) as [u |] eqn:Hu; [| reflexivity].
  apply (Hanon data u eq_refl Hu).
Qed.

(** X23. The page loads expenses only once it knows a user name. When the
    auth status fails, stays pending, or names no user, the page sends no
    expenses request and its state, with its loading flag, stays as it was;
    otherwise it sends one request for the current selections. *)
Theorem paidByMe_waits_for_user (net : Network) (p : Promise Header.AuthStatus)
    (selectedYear selectedMonth selectedCategory : string)
    (fetched : Promise (list Dashboard.Expense)) (st : ExpensesPage.PageState) :
  let userName := PaidByMePage.onAuthStatus p EmptyString in
  (anonymousOutcome p ->
     PaidByMePage.loadRequests net userName selectedYear selectedMonth selectedCategory = [] /\
     PaidByMePage.onLoad userName fetched st = st) /\
  (~ anonymousOutcome p ->
     PaidByMePage.loadRequests net userName selectedYear selectedMonth selectedCategory
       = [GET (expensesUrl
                 (ExpensesPage.requestParams selectedYear selectedMonth selectedCategory))]).
Proof.
  intros userName. subst userName. split.
  - intros Hanon. rewrite (anonymous_userName p Hanon). split; reflexivity.
  - intros Hnamed. unfold PaidByMePage.loadRequests, PaidByMePage.loadCall.
    destruct (str_truthy (PaidByMePage.onAuthStatus p EmptyString)) eqn:Hname; [reflexivity |].
    exfalso. apply Hnamed. intros data u -> Hu.
    unfold PaidByMePage.onAuthStatus in Hname. rewrite Hu in Hname.
    destruct (Header.first_name u); [reflexivity | discriminate Hname].
Qed.

Lemma paidByMe_waits_for_user_witness :
  PaidByMePage.loadRequests never
    (PaidByMePage.onAuthStatus (Rejected TypeError) EmptyString) "2024" EmptyString EmptyString
    = [].
Proof.
  pose proof (paidByMe_waits_for_user never (Rejected TypeError) "2024" EmptyString EmptyString
                Pending {| ExpensesPage.expenses := []; ExpensesPage.loading := true |}) as H.
  cbv zeta in H. destruct H as [Hanon _].
  apply Hanon. intros data u Hp. discriminate Hp.
Defined.

(** X24. After a successful load under a user name, the page holds
    exactly the received expenses whose payer is that name, and is no longer
    loading. *)
Theorem paidByMe_keeps_own_expenses (userName : string) (data : list Dashboard.Expense)
    (st : ExpensesPage.PageState) :
  userName <> EmptyString ->
  let after := PaidByMePage.onLoad userName (Fulfilled data) st in
  ExpensesPage.loading after = false /\
  (forall e, In e (ExpensesPage.expenses after) <->
             In e data /\ Dashboard.payer_name e = userName).
Proof.
  intros Hne after. subst after. unfold PaidByMePage.onLoad.
  destruct userName as [| c s]; [contradiction Hne; reflexivity |]. simpl.
  split; [reflexivity |]. intros e. rewrite filter_In, String.eqb_eq. tauto.
Qed.

Lemma paidByMe_keeps_own_expenses_witness :
  ~ In (sampleExpense "2024-01-15" "Ravi" "Fuel" None 900)
       (ExpensesPage.expenses
          (PaidByMePage.onLoad "Asha" (Fulfilled sampleExpenses)
             {| ExpensesPage.expenses := []; ExpensesPage.loading := true |})).
Proof.
  pose proof (paidByMe_keeps_own_expenses "Asha" sampleExpenses
                {| ExpensesPage.expenses := []; ExpensesPage.loading := true |}) as H.
  cbv zeta in H. destruct H as [_ Hin]; [discriminate |].
  intros Hravi. apply Hin in Hravi. destruct Hravi as [_ Hpayer]. discriminate Hpayer.
Defined.

(** ** The recent expenses table *)

Lemma numbered_fields {A : Type} (l : list A) :
  forall i, map fst (Recent.numbered i l) = seq (S i) (List.length l) /\
            map snd (Recent.numbered i l) = l.
Proof.
  induction l as [| e l IH]; intros i; simpl; [split; reflexivity |].
  destruct (IH (S i)) as [H1 H2]. rewrite H1, H2, Nat.add_1_r. split; reflexivity.
Qed.

(** X25. The table shows the first ten expenses at most, in the order
    received, numbered 1, 2, 3 and so on without a gap. *)
Theorem recent_rows_numbered (data : list Dashboard.Expense) :
  map fst (Recent.rows data) = seq 1 (Nat.min 10 (List.length data)) /\
  map snd (Recent.rows data) = firstn 10 data.
Proof.
  unfold Recent.rows. destruct (numbered_fields (firstn 10 data) 0) as [H1 H2].
  rewrite H1, H2, length_firstn. split; reflexivity.
Qed.

(** ** The header *)

(** X26. The name in the header is never empty: it is the first name of
    the user the auth status names, and [User] when the status fails, stays
    pending, or names no user. *)
Theorem header_name_never_empty (p : Promise Header.AuthStatus) :
  Header.userName (Header.onAuthStatus p None) <> EmptyString /\
  (anonymousOutcome p -> Header.userName (Header.onAuthStatus p None) = "User") /\
  (forall data u, p = Fulfilled data -> Header.user data = Some u ->
     Header.first_name u <> EmptyString ->
     Header.userName (Header.onAuthStatus p None) = Header.first_name u).
Proof.
  split; [| split].
  - unfold Header.onAuthStatus, Header.userName.
    destruct p as [data | e |]; try discriminate.
    destruct (Header.user data) as [u |]; [| discriminate].
    unfold Arr.orString. destruct (Header.first_name u); simpl; discriminate.
  - intros Hanon. unfold Header.onAuthStatus, Header.userName.
    destruct p as [data | e |]; try reflexivity.
    destruct (Header.user data) as [u |] eqn:Hu; [| reflexivity].
    rewrite (Hanon data u eq_refl Hu). reflexivity.
  - intros data u -> Hu Hne. simpl. unfold Header.userName. rewrite Hu.
    unfold Arr.orString. destruct (Header.first_name u); [contradiction Hne; reflexivity |].
    reflexivity.
Qed.

Lemma header_name_never_empty_witness :
  Header.userName (Header.onAuthStatus Pending None) = "User".
Proof.
  apply (proj1 (proj2 (header_name_never_empty Pending))).
  intros data u Hp. discriminate Hp.
Defined.

(** ** The monthly chart *)

(** X27. Without data the chart opens on the current year. With data
    whose month keys all start with a year, it opens on a year of its menu
    and draws at least one bar; and every bar it draws, for any selected
    year, belongs to a month whose key starts with that year. *)
Theorem monthly_chart_opens_with_bars (monthLabel : string -> string)
    (data : list Dashboard.MonthlyData) (currentYear : string) :
  (data = [] -> MonthlyChart.initialYear data currentYear = currentYear) /\
  (data <> [] ->
   (forall m, In m data -> Arr.firstPart "-" (Dashboard.month m) <> EmptyString) ->
   In (MonthlyChart.initialYear data currentYear) (MonthlyChart.availableYears data) /\
   MonthlyChart.chartData monthLabel data (MonthlyChart.initialYear data currentYear) <> []) /\
  (forall selectedYear bar,
     In bar (MonthlyChart.chartData monthLabel data selectedYear) ->
     String.prefix selectedYear (MonthlyChart.fullMonth bar) = true).
Proof.
  split; [| split].
  - intros ->. reflexivity.
  - intros Hdata Hyears.
    destruct (rev_sort_unique (map (fun m => Arr.firstPart "-" (Dashboard.month m)) data))
      as [_ [_ Hin]].
    fold (MonthlyChart.availableYears data) in Hin.
    unfold MonthlyChart.initialYear.
    destruct (MonthlyChart.availableYears data) as [| y rest] eqn:Havail.
    + exfalso. destruct data as [| m data]; [apply Hdata; reflexivity |].
      apply (Hin (Arr.firstPart "-" (Dashboard.month m))). left; reflexivity.
    + assert (Hy : In y (y :: rest)) by (left; reflexivity).
      apply Hin in Hy. apply in_map_iff in Hy. destruct Hy as [m [Hm Hmin]].
      assert (Hne : y <> EmptyString) by (rewrite <- Hm; apply Hyears; exact Hmin).
      assert (Hor : Arr.orString y currentYear = y).
      { unfold Arr.orString. destruct y; [contradiction Hne; reflexivity | reflexivity]. }
      rewrite Hor. split; [left; reflexivity |].
      unfold MonthlyChart.chartData. intros Hempty.
      apply map_eq_nil in Hempty.
      assert (Hmem : In m (rev (filter (fun m0 => String.prefix y (Dashboard.month m0)) data))).
      { apply in_rev. rewrite rev_involutive. apply filter_In. split; [exact Hmin |].
        rewrite <- Hm. apply firstPart_prefix. }
      rewrite Hempty in Hmem. contradiction.
  - intros selectedYear bar Hin. unfold MonthlyChart.chartData in Hin.
    apply in_map_iff in Hin. destruct Hin as [m [<- Hm]]. simpl.
    apply in_rev in Hm. apply filter_In in Hm. apply Hm.
Qed.

Lemma monthly_chart_opens_with_bars_witness :
  MonthlyChart.chartData monthKey sampleMonthly (MonthlyChart.initialYear sampleMonthly "2026")
    <> [].
Proof.
  destruct (monthly_chart_opens_with_bars monthKey sampleMonthly "2026") as [_ [Hopen _]].
  apply Hopen; [discriminate |].
  intros m Hin. simpl in Hin. destruct Hin as [<- | [<- | []]]; discriminate.
Defined.
